(** * PCF85063A real-time clock driver: register interface

    A shallow embedding of [pcf85063a.py].  The driver class is a list of
    register descriptors (class attributes built from the register library)
    plus a constructor and the [datetime] property.  Every access goes
    through the two-wire bus, so the embedding threads an explicit bus state
    and propagates errors as Python propagates exceptions. *)

From Stdlib Require Import ZArith List Bool Lia String.
Import ListNotations.
Local Open Scope Z_scope.

(** ** Errors and results *)

Inductive error : Type :=
| TransportError
| DecodeError (field : string).

Inductive result (A : Type) : Type :=
| Ok (a : A)
| Err (e : error).

Arguments Ok {A} a.
Arguments Err {A} e.

(** ** The bus and the chip behind it *)

(** One addressed transaction, as the transport sees it. *)
Inductive transaction : Type :=
| TxWrite (device_addr : Z) (bytes : list Z)
| TxWriteThenRead (device_addr : Z) (write_bytes : list Z) (read_len : nat).

Definition txn_addr (t : transaction) : Z :=
  match t with
  | TxWrite a _ => a
  | TxWriteThenRead a _ _ => a
  end.

Definition is_write (t : transaction) : bool :=
  match t with
  | TxWrite _ _ => true
  | TxWriteThenRead _ _ _ => false
  end.

(** The chip's register file: one byte per register address. *)
Definition registers : Type := Z -> Z.

Definition set_reg (m : registers) (a v : Z) : registers :=
  fun x => if x =? a then v else m x.

Fixpoint store (m : registers) (a : Z) (bytes : list Z) : registers :=
  match bytes with
  | [] => m
  | b :: rest => store (set_reg m a b) (a + 1) rest
  end.

Fixpoint load (m : registers) (a : Z) (n : nat) : list Z :=
  match n with
  | O => []
  | S k => m a :: load m (a + 1) k
  end.

(** The state of the bus: the chip's registers, the outcome of the
    transactions still to come ([true]: that transaction fails; past the
    end of the list none fails), and the transactions issued so far. *)
Record bus : Type := mkBus {
  regs : registers;
  faults : list bool;
  trace : list transaction
}.

(** Driver code runs against the bus and either returns or raises; the bus
    keeps whatever was done before the error. *)
Definition M (A : Type) : Type := bus -> result A * bus.

Definition ret {A : Type} (a : A) : M A := fun b => (Ok a, b).

Definition bind {A B : Type} (m : M A) (k : A -> M B) : M B :=
  fun b =>
    match m b with
    | (Ok a, b') => k a b'
    | (Err e, b') => (Err e, b')
    end.

Definition lift {A : Type} (r : result A) : M A := fun b => (r, b).

Notation "x <- m ;; k" := (bind m (fun x => k))
  (at level 61, m at next level, right associativity).
Notation "m ;; k" := (bind m (fun _ => k))
  (at level 61, right associativity).

(** Modelled from the spec: the Transport collaborator (section 6),
    [write(device_addr, bytes)].  The transaction is recorded; when it
    succeeds the first byte selects a register and the bytes after it are
    stored in that register and the ones that follow. *)
Definition write (device_addr : Z) (bytes : list Z) : M unit :=
  fun b =>
    let t := trace b ++ [TxWrite device_addr bytes] in
    if hd false (faults b) then (Err TransportError, mkBus (regs b) (tl (faults b)) t)
    else
      match bytes with
      | [] => (Ok tt, mkBus (regs b) (tl (faults b)) t)
      | pointer :: data => (Ok tt, mkBus (store (regs b) pointer data) (tl (faults b)) t)
      end.

(** Modelled from the spec: the Transport collaborator (section 6),
    [write_then_read(device_addr, write_bytes, read_len)].  The first byte
    written selects the register the read starts at; no register changes. *)
Definition write_then_read (device_addr : Z) (write_bytes : list Z) (read_len : nat)
  : M (list Z) :=
  fun b =>
    let b' := mkBus (regs b) (tl (faults b))
                    (trace b ++ [TxWriteThenRead device_addr write_bytes read_len]) in
    if hd false (faults b) then (Err TransportError, b')
    else (Ok (load (regs b) (hd 0 write_bytes) read_len), b').

(** ** The device handle *)

Record I2CDevice : Type := mkI2CDevice { device_address : Z }.

Record PCF85063A : Type := mkPCF85063A { i2c_device : I2CDevice }.

(** [PCF85063A.__init__]: [self.i2c_device = I2CDevice(i2c_bus, 0x51)]. *)
Definition __init__ : PCF85063A := mkPCF85063A (mkI2CDevice 0x51).

Definition address_of (obj : PCF85063A) : Z := device_address (i2c_device obj).

(** ** Register descriptors *)

(** [i2c_bit.RWBit(register_address, bit)]. *)
Record RWBit : Type := mkRWBit { bit_register : Z; bit_index : Z }.

(** [i2c_bits.RWBits(num_bits, register_address, lowest_bit, signed=False)]. *)
Record RWBits : Type := mkRWBits {
  num_bits : Z;
  bits_register : Z;
  lowest_bit : Z;
  signed : bool
}.

(** [i2c_bcd_datetime.BCDDateTimeRegister(register_address, weekday_first,
    weekday_start)]. *)
Record BCDDateTimeRegister : Type := mkBCDDateTimeRegister {
  dt_register : Z;
  weekday_first : bool;
  dt_weekday_start : Z
}.

(** [i2c_bcd_alarm.BCDAlarmTimeRegister(register_address, has_seconds,
    weekday_shared, weekday_start)]. *)
Record BCDAlarmTimeRegister : Type := mkBCDAlarmTimeRegister {
  al_register : Z;
  has_seconds : bool;
  weekday_shared : bool;
  al_weekday_start : Z
}.

(** Modelled from the spec: the read of the single byte of a register
    (section 4.1): one transaction. *)
Definition read_byte (obj : PCF85063A) (addr : Z) : M Z :=
  bytes <- write_then_read (address_of obj) [addr] 1 ;;
  ret (hd 0 bytes).

(** The bits of a byte that a field of [width] bits at [offset] covers. *)
Definition field_mask (width offset : Z) : Z := Z.shiftl (Z.ones width) offset.

(** Modelled from the spec: the byte [write_bit] writes back (section 4.1):
    the current byte with the one bit set or cleared. *)
Definition with_bit (byte bit : Z) (value : bool) : Z :=
  if value then Z.lor byte (Z.shiftl 1 bit) else Z.land byte (Z.lnot (Z.shiftl 1 bit)).

(** Modelled from the spec: the byte [write_bits] writes back (section
    4.1): the current byte with the target bit span cleared and the new
    value's masked bits put in. *)
Definition with_field (byte offset width value : Z) : Z :=
  Z.lor (Z.land byte (Z.lnot (field_mask width offset)))
        (Z.land (Z.shiftl value offset) (field_mask width offset)).

(** Modelled from the spec: [read_bit(addr, bit)] (section 4.1), the read
    side of the register library's [RWBit]: one byte is read at the
    register and the bit is extracted. *)
Definition RWBit_get (self : RWBit) (obj : PCF85063A) : M bool :=
  byte <- read_byte obj (bit_register self) ;;
  ret (Z.testbit byte (bit_index self)).

(** Modelled from the spec: [write_bit(addr, bit, value)] (section 4.1), the
    write side of [RWBit]: read the current byte, set or clear the bit,
    write the single byte back. *)
Definition RWBit_set (self : RWBit) (obj : PCF85063A) (value : bool) : M unit :=
  byte <- read_byte obj (bit_register self) ;;
  write (address_of obj) [bit_register self; with_bit byte (bit_index self) value].

(** Modelled from the spec: sign extension of a [width]-bit value from bit
    [width - 1] (section 4.1). *)
Definition sign_extend (width raw : Z) : Z :=
  if Z.testbit raw (width - 1) then raw - 2 ^ width else raw.

(** Modelled from the spec: [read_bits(addr, offset, width, signed)]
    (section 4.1), the read side of [RWBits]: one byte is read, [width] bits
    starting at [offset] are extracted and, for a signed field, sign-extended
    from bit [width - 1]. *)
Definition RWBits_get (self : RWBits) (obj : PCF85063A) : M Z :=
  byte <- read_byte obj (bits_register self) ;;
  let raw := Z.shiftr (Z.land byte (field_mask (num_bits self) (lowest_bit self)))
                      (lowest_bit self) in
  ret (if signed self then sign_extend (num_bits self) raw else raw).

(** Modelled from the spec: [write_bits(addr, offset, width, signed, value)]
    (section 4.1), the write side of [RWBits]: read the current byte, clear
    the target bit span, OR in the new value's masked bits, write the single
    byte back. *)
Definition RWBits_set (self : RWBits) (obj : PCF85063A) (value : Z) : M unit :=
  byte <- read_byte obj (bits_register self) ;;
  write (address_of obj)
        [bits_register self;
         with_field byte (lowest_bit self) (num_bits self) value].

(** ** Date and time *)

(** Python's [time.struct_time]. *)
Record struct_time : Type := mk_struct_time {
  tm_year : Z;
  tm_mon : Z;
  tm_mday : Z;
  tm_hour : Z;
  tm_min : Z;
  tm_sec : Z;
  tm_wday : Z;
  tm_yday : Z;
  tm_isdst : Z
}.

(** What the chip does not hold (day of the year, daylight saving) reads as
    [-1], Python's marker for an unknown field, as in the class docstring's
    [struct_time((2017, 10, 29, 15, 14, 15, 0, -1, -1))]. *)
Definition unknown : Z := -1.

Definition without_derived (t : struct_time) : struct_time :=
  mk_struct_time (tm_year t) (tm_mon t) (tm_mday t) (tm_hour t) (tm_min t)
                 (tm_sec t) (tm_wday t) unknown unknown.

Definition is_leap (year : Z) : bool :=
  ((year mod 4 =? 0) && negb (year mod 100 =? 0)) || (year mod 400 =? 0).

Definition days_in_month (year mon : Z) : Z :=
  if mon =? 2 then (if is_leap year then 29 else 28)
  else if (mon =? 4) || (mon =? 6) || (mon =? 9) || (mon =? 11) then 30
  else 31.

(** The calendar values the chip can hold. *)
Definition valid_time (t : struct_time) : bool :=
  (2000 <=? tm_year t) && (tm_year t <=? 2099) &&
  (1 <=? tm_mon t) && (tm_mon t <=? 12) &&
  (1 <=? tm_mday t) && (tm_mday t <=? days_in_month (tm_year t) (tm_mon t)) &&
  (0 <=? tm_wday t) && (tm_wday t <=? 6) &&
  (0 <=? tm_hour t) && (tm_hour t <=? 23) &&
  (0 <=? tm_min t) && (tm_min t <=? 59) &&
  (0 <=? tm_sec t) && (tm_sec t <=? 59).

(** Modelled from the spec: BCD encoding of the register library (section
    4.2 and the glossary): each nibble holds one decimal digit, tens in the
    high nibble. *)
Definition bin2bcd (value : Z) : Z :=
  Z.lor (Z.shiftl (value / 10) 4) (value mod 10).

(** Modelled from the spec: a byte with a nibble above 9 is not BCD
    (section 3, invariants). *)
Definition bad_bcd (byte : Z) : bool :=
  (9 <? Z.land (Z.shiftr byte 4) 0xF) || (9 <? Z.land byte 0xF).

(** Modelled from the spec: BCD decoding of the register library (section
    4.2): [tens = byte>>4 & 0xF], [ones = byte & 0xF], value
    [tens*10+ones]; a nibble above 9 is a decode error naming the field. *)
Definition bcd2bin (field : string) (byte : Z) : result Z :=
  let tens := Z.land (Z.shiftr byte 4) 0xF in
  let ones := Z.land byte 0xF in
  if bad_bcd byte then Err (DecodeError field) else Ok (tens * 10 + ones).

Definition and_then {A B : Type} (r : result A) (k : A -> result B) : result B :=
  match r with
  | Ok a => k a
  | Err e => Err e
  end.

(** Modelled from the spec: the seven bytes of the date-time register group
    (sections 3 and 4.2): seconds, minutes, hours, day, weekday, month, year;
    the weekday is a plain 3-bit number, the year is kept as [year - 2000]
    modulo 100.  [weekday_first] swaps day and weekday, [weekday_start] is
    the number the chip gives the first day of the week. *)
Definition encode_datetime (self : BCDDateTimeRegister) (value : struct_time) : list Z :=
  let day := bin2bcd (tm_mday value) in
  let wday := Z.land (tm_wday value + dt_weekday_start self) 7 in
  [bin2bcd (tm_sec value); bin2bcd (tm_min value); bin2bcd (tm_hour value)]
    ++ (if weekday_first self then [wday; day] else [day; wday])
    ++ [bin2bcd (tm_mon value); bin2bcd ((tm_year value - 2000) mod 100)].

(** Modelled from the spec: decoding of the date-time register group
    (section 4.2).  The top bit of the seconds byte is the power-lost flag
    and is stripped before the seconds are decoded. *)
Definition decode_datetime (self : BCDDateTimeRegister) (buffer : list Z)
  : result struct_time :=
  let byte i := nth i buffer 0 in
  let day_at := if weekday_first self then 4%nat else 3%nat in
  let wday_at := if weekday_first self then 3%nat else 4%nat in
  and_then (bcd2bin "tm_sec" (Z.land (byte 0%nat) 0x7F)) (fun sec =>
  and_then (bcd2bin "tm_min" (byte 1%nat)) (fun minute =>
  and_then (bcd2bin "tm_hour" (byte 2%nat)) (fun hour =>
  and_then (bcd2bin "tm_mday" (byte day_at)) (fun mday =>
  and_then (bcd2bin "tm_mon" (byte 5%nat)) (fun mon =>
  and_then (bcd2bin "tm_year" (byte 6%nat)) (fun year =>
  Ok (mk_struct_time (year + 2000) mon mday hour minute sec
        (Z.land (byte wday_at) 7 - dt_weekday_start self) unknown unknown))))))).

(** Modelled from the spec: reading the date-time (section 4.2): one read
    transaction covering the seven bytes, then the decoding. *)
Definition BCDDateTimeRegister_get (self : BCDDateTimeRegister) (obj : PCF85063A)
  : M struct_time :=
  buffer <- write_then_read (address_of obj) [dt_register self] 7 ;;
  lift (decode_datetime self buffer).

(** Modelled from the spec: writing the date-time (section 4.2): one write
    transaction covering all seven bytes. *)
Definition BCDDateTimeRegister_set (self : BCDDateTimeRegister) (obj : PCF85063A)
    (value : struct_time) : M unit :=
  write (address_of obj) (dt_register self :: encode_datetime self value).

(** ** Alarm *)

(** Modelled from the spec: the alarm value, a partial date-time (section
    4.3): [None] is a field left out of the comparison. *)
Record alarm_time : Type := mk_alarm_time {
  al_sec : option Z;
  al_min : option Z;
  al_hour : option Z;
  al_mday : option Z;
  al_wday : option Z
}.

(** Modelled from the spec: the top bit of an alarm byte, set when the
    field is not compared (section 3). *)
Definition ALARM_COMPONENT_DISABLED : Z := 0x80.

(** Modelled from the spec: one BCD alarm byte (section 4.3): the top bit
    for a field left out, the BCD digits in the remaining bits otherwise. *)
Definition encode_alarm_bcd (v : option Z) : Z :=
  match v with
  | None => ALARM_COMPONENT_DISABLED
  | Some n => Z.land (bin2bcd n) 0x7F
  end.

(** Modelled from the spec: decoding of one BCD alarm byte (section 4.3),
    the top bit masked out before the BCD decoding. *)
Definition decode_alarm_bcd (field : string) (byte : Z) : result (option Z) :=
  if Z.testbit byte 7 then Ok None
  else and_then (bcd2bin field (Z.land byte 0x7F)) (fun n => Ok (Some n)).

(** Modelled from the spec: the bytes of the alarm register group (sections
    3 and 4.3): seconds, minutes, hours, day, weekday, each with its top bit
    set when the field is ignored; the weekday is a plain number.  Without
    [has_seconds] the group starts at the minutes; the layout where day and
    weekday share a register is not this chip's and is left without a
    weekday byte. *)
Definition encode_alarm (self : BCDAlarmTimeRegister) (value : alarm_time) : list Z :=
  (if has_seconds self then [encode_alarm_bcd (al_sec value)] else [])
    ++ [encode_alarm_bcd (al_min value); encode_alarm_bcd (al_hour value);
        encode_alarm_bcd (al_mday value)]
    ++ (if weekday_shared self then []
        else [match al_wday value with
              | None => ALARM_COMPONENT_DISABLED
              | Some n => Z.land (n + al_weekday_start self) 7
              end]).

(** Modelled from the spec: the number of bytes of the alarm group
    (section 3): minutes, hours and day, the seconds when the chip has them,
    the weekday when it has a register of its own. *)
Definition alarm_length (self : BCDAlarmTimeRegister) : nat :=
  ((if has_seconds self then 1 else 0) + 3 + (if weekday_shared self then 0 else 1))%nat.

(** Modelled from the spec: decoding of the alarm register group (section
    4.3), field by field as for the date-time. *)
Definition decode_alarm (self : BCDAlarmTimeRegister) (buffer : list Z)
  : result alarm_time :=
  let i := if has_seconds self then 1%nat else 0%nat in
  let byte k := nth k buffer 0 in
  and_then (if has_seconds self then decode_alarm_bcd "tm_sec" (byte 0%nat) else Ok None)
    (fun sec =>
  and_then (decode_alarm_bcd "tm_min" (byte i)) (fun minute =>
  and_then (decode_alarm_bcd "tm_hour" (byte (i + 1)%nat)) (fun hour =>
  and_then (decode_alarm_bcd "tm_mday" (byte (i + 2)%nat)) (fun mday =>
  let wbyte := byte (i + 3)%nat in
  let wday := if weekday_shared self || Z.testbit wbyte 7 then None
              else Some (Z.land wbyte 7 - al_weekday_start self) in
  Ok (mk_alarm_time sec minute hour mday wday))))).

(** Modelled from the spec: reading the alarm (section 4.3), one read
    transaction over the whole group, then the decoding. *)
Definition BCDAlarmTimeRegister_get (self : BCDAlarmTimeRegister) (obj : PCF85063A)
  : M alarm_time :=
  buffer <- write_then_read (address_of obj) [al_register self] (alarm_length self) ;;
  lift (decode_alarm self buffer).

(** Modelled from the spec: writing the alarm (section 4.3), one write
    transaction over the whole group. *)
Definition BCDAlarmTimeRegister_set (self : BCDAlarmTimeRegister) (obj : PCF85063A)
    (value : alarm_time) : M unit :=
  write (address_of obj) (al_register self :: encode_alarm self value).

(** ** The driver class: its descriptors, in source order *)

Definition lost_power : RWBit := mkRWBit 0x04 7.

Definition datetime_register : BCDDateTimeRegister := mkBCDDateTimeRegister 0x04 false 0.

Definition clockout_frequency : RWBits := mkRWBits 3 0x01 0 false.

Definition CLOCKOUT_FREQ_32KHZ : Z := 0.
Definition CLOCKOUT_FREQ_16KHZ : Z := 1.
Definition CLOCKOUT_FREQ_8KHZ : Z := 2.
Definition CLOCKOUT_FREQ_4KHZ : Z := 3.
Definition CLOCKOUT_FREQ_2KHZ : Z := 4.
Definition CLOCKOUT_FREQ_1KHZ : Z := 5.
Definition CLOCKOUT_FREQ_1HZ : Z := 6.
Definition CLOCKOUT_FREQ_DISABLED : Z := 7.

Definition alarm : BCDAlarmTimeRegister := mkBCDAlarmTimeRegister 0x0B true false 0.

Definition alarm_interrupt : RWBit := mkRWBit 0x01 7.

Definition alarm_status : RWBit := mkRWBit 0x01 6.

Definition timerA_enabled : RWBit := mkRWBit 0x11 2.

Definition timerA_frequency : RWBits := mkRWBits 2 0x11 3 false.

Definition TIMER_FREQ_4KHZ : Z := 0.
Definition TIMER_FREQ_64HZ : Z := 1.
Definition TIMER_FREQ_1HZ : Z := 2.
Definition TIMER_FREQ_1_60HZ : Z := 3.

Definition timerA_value : RWBits := mkRWBits 8 0x10 0 false.

Definition timerA_interrupt : RWBit := mkRWBit 0x11 1.

Definition timerA_status : RWBit := mkRWBit 0x01 3.

Definition timerA_pulsed : RWBit := mkRWBit 0x11 0.

Definition high_capacitance : RWBit := mkRWBit 0x00 0.

Definition calibration_schedule_per_minute : RWBit := mkRWBit 0x02 7.

Definition calibration : RWBits := mkRWBits 7 0x02 0 true.

Definition ram_byte : RWBits := mkRWBits 8 0x03 0 false.

(** The [datetime] property: the getter returns [self.datetime_register]. *)
Definition datetime (self : PCF85063A) : M struct_time :=
  BCDDateTimeRegister_get datetime_register self.

(** The [datetime] setter: [self.lost_power = False], then
    [self.datetime_register = value]. *)
Definition datetime_setter (self : PCF85063A) (value : struct_time) : M unit :=
  RWBit_set lost_power self false ;;
  BCDDateTimeRegister_set datetime_register self value.

(** Every access the class offers to its callers. *)
Inductive access : Type :=
| GetBit (d : RWBit)
| SetBit (d : RWBit) (value : bool)
| GetBits (d : RWBits)
| SetBits (d : RWBits) (value : Z)
| GetDatetime
| SetDatetime (value : struct_time)
| GetAlarm
| SetAlarm (value : alarm_time).

Definition discard {A : Type} (m : M A) : M unit := _ <- m ;; ret tt.

Definition perform (self : PCF85063A) (a : access) : M unit :=
  match a with
  | GetBit d => discard (RWBit_get d self)
  | SetBit d value => RWBit_set d self value
  | GetBits d => discard (RWBits_get d self)
  | SetBits d value => RWBits_set d self value
  | GetDatetime => discard (datetime self)
  | SetDatetime value => datetime_setter self value
  | GetAlarm => discard (BCDAlarmTimeRegister_get alarm self)
  | SetAlarm value => BCDAlarmTimeRegister_set alarm self value
  end.

(** The transactions a run added to the trace. *)
Definition issued {A : Type} (m : M A) (b : bus) : list transaction :=
  skipn (List.length (trace b)) (trace (snd (m b))).

(** * Statements

    The definitions the theorems below are stated with. *)

(** A check of every number below a bound, by enumeration. *)
Fixpoint all_below (n : nat) (p : Z -> bool) : bool :=
  match n with
  | O => true
  | S k => p (Z.of_nat k) && all_below k p
  end.

Definition in_field (offset width n : Z) : bool := (offset <=? n) && (n <? offset + width).

(** The value of a field, by arithmetic on the byte: the quotient by
    [2^offset], modulo [2^width], read in two's complement when signed. *)
Definition field_value (byte offset width : Z) (sg : bool) : Z :=
  let raw := (byte / 2 ^ offset) mod 2 ^ width in
  if sg && (2 ^ (width - 1) <=? raw) then raw - 2 ^ width else raw.

(** What it means for a single-bit accessor to sit at bit [bit] of register
    [addr]: reading returns that bit of that register after one one-byte
    read there; a write, when its two transactions are not failed by the
    bus, goes through as a one-byte read of [addr] followed by a one-byte
    write to [addr]; and a write that goes through changes that bit to the
    value written and nothing else on the chip. *)
Definition bit_accessor_at (d : RWBit) (addr bit : Z) : Prop :=
  forall (self : PCF85063A) (b : bus),
    RWBit_get d self b =
      (if hd false (faults b) then Err TransportError
       else Ok (Z.testbit (regs b addr) bit),
       mkBus (regs b) (tl (faults b))
             (trace b ++ [TxWriteThenRead (address_of self) [addr] 1])) /\
    forall (value : bool),
      (nth 0 (faults b) false = false -> nth 1 (faults b) false = false ->
       exists b', RWBit_set d self value b = (Ok tt, b') /\
         issued (RWBit_set d self value) b =
           [TxWriteThenRead (address_of self) [addr] 1;
            TxWrite (address_of self) [addr; regs b' addr]]) /\
      forall (b' : bus),
        RWBit_set d self value b = (Ok tt, b') ->
        (forall x, x <> addr -> regs b' x = regs b x) /\
        (forall n, 0 <= n ->
           Z.testbit (regs b' addr) n =
             if n =? bit then value else Z.testbit (regs b addr) n).

(** The same for a field of [width] bits at [offset] of register [addr],
    signed or not. *)
Definition field_accessor_at (d : RWBits) (addr offset width : Z) (sg : bool) : Prop :=
  forall (self : PCF85063A) (b : bus),
    RWBits_get d self b =
      (if hd false (faults b) then Err TransportError
       else Ok (field_value (regs b addr) offset width sg),
       mkBus (regs b) (tl (faults b))
             (trace b ++ [TxWriteThenRead (address_of self) [addr] 1])) /\
    forall (value : Z),
      (nth 0 (faults b) false = false -> nth 1 (faults b) false = false ->
       exists b', RWBits_set d self value b = (Ok tt, b') /\
         issued (RWBits_set d self value) b =
           [TxWriteThenRead (address_of self) [addr] 1;
            TxWrite (address_of self) [addr; regs b' addr]]) /\
      forall (b' : bus),
        RWBits_set d self value b = (Ok tt, b') ->
        (forall x, x <> addr -> regs b' x = regs b x) /\
        (forall n, 0 <= n ->
           Z.testbit (regs b' addr) n =
             if in_field offset width n then Z.testbit value (n - offset)
             else Z.testbit (regs b addr) n).

(** The date-time block: [len] bytes from [addr], read in one transaction;
    an assignment, when its three transactions are not failed by the bus,
    goes through and writes the encoded value to [addr] in one transaction;
    and after an assignment that goes through the block holds the encoded
    value with every register outside the block as before. *)
Definition datetime_block_at (addr : Z) (len : nat) : Prop :=
  forall (self : PCF85063A) (b : bus),
    datetime self b =
      (if hd false (faults b) then Err TransportError
       else decode_datetime datetime_register (load (regs b) addr len),
       mkBus (regs b) (tl (faults b))
             (trace b ++ [TxWriteThenRead (address_of self) [addr] len])) /\
    forall (value : struct_time),
      (nth 0 (faults b) false = false -> nth 1 (faults b) false = false ->
       nth 2 (faults b) false = false ->
       exists b', datetime_setter self value b = (Ok tt, b') /\
         List.length (encode_datetime datetime_register value) = len /\
         In (TxWrite (address_of self) (addr :: encode_datetime datetime_register value))
            (issued (datetime_setter self value) b)) /\
      forall (b' : bus),
        datetime_setter self value b = (Ok tt, b') ->
        load (regs b') addr len = encode_datetime datetime_register value /\
        (forall x, x < addr \/ addr + Z.of_nat len <= x -> regs b' x = regs b x).

(** The alarm block: [len] bytes from [addr], read in one transaction and,
    when the bus does not fail it, written in one transaction, with the day
    of the month in register [day_addr] and the weekday in register
    [wday_addr]. *)
Definition alarm_block_at (addr : Z) (len : nat) (day_addr wday_addr : Z) : Prop :=
  forall (self : PCF85063A) (b : bus),
    BCDAlarmTimeRegister_get alarm self b =
      (if hd false (faults b) then Err TransportError
       else decode_alarm alarm (load (regs b) addr len),
       mkBus (regs b) (tl (faults b))
             (trace b ++ [TxWriteThenRead (address_of self) [addr] len])) /\
    forall (value : alarm_time),
      (nth 0 (faults b) false = false ->
       exists b', BCDAlarmTimeRegister_set alarm self value b = (Ok tt, b') /\
         List.length (encode_alarm alarm value) = len /\
         issued (BCDAlarmTimeRegister_set alarm self value) b =
           [TxWrite (address_of self) (addr :: encode_alarm alarm value)]) /\
      forall (b' : bus),
        BCDAlarmTimeRegister_set alarm self value b = (Ok tt, b') ->
        load (regs b') addr len = encode_alarm alarm value /\
        (forall x, x < addr \/ addr + Z.of_nat len <= x -> regs b' x = regs b x) /\
        regs b' day_addr = encode_alarm_bcd (al_mday value) /\
        regs b' wday_addr = match al_wday value with
                            | None => ALARM_COMPONENT_DISABLED
                            | Some n => Z.land (n + 0) 7
                            end.

(** The order section 4.2 of the spec gives, in its words: the write of the
    seven-byte block first, the write that clears the flag second. *)
Definition block_then_flag (self : PCF85063A) (value : struct_time) (b : bus) : Prop :=
  exists flag_byte,
    filter is_write (issued (datetime_setter self value) b) =
      [TxWrite (address_of self) (0x04 :: encode_datetime datetime_register value);
       TxWrite (address_of self) [0x04; flag_byte]].

(** A run adds transactions to the trace, all of them to [dev]. *)
Definition addressed (dev : Z) {A : Type} (m : M A) : Prop :=
  forall b, exists l,
    trace (snd (m b)) = trace b ++ l /\ Forall (fun t => txn_addr t = dev) l.

(** ** Concrete values used in the examples *)

(** The docstring's example: 29 October 2017, 15:14:15. *)
Definition example_time : struct_time :=
  mk_struct_time 2017 10 29 15 14 15 0 (-1) (-1).

(** A chip that lost power: the flag in the top bit of the seconds register
    is set, every other register is zero. *)
Definition power_lost : registers := fun a => if a =? 0x04 then 0x80 else 0.

Definition quiet_bus : bus := mkBus power_lost [] [].

(** The read and the first write go through, the second write fails. *)
Definition second_write_fails : bus := mkBus power_lost [false; false; true] [].

(** Every bit outside the two frequency selectors is set beforehand. *)
Definition seeded : registers :=
  fun a => if a =? 0x11 then 0xE7 else if a =? 0x01 then 0xF8 else 0.

Definition seeded_bus : bus := mkBus seeded [] [].

(** The boundary values of the spec, run on the chip that lost power. *)
Definition calibration_after (v : Z) : result Z :=
  fst (RWBits_get calibration __init__ (snd (RWBits_set calibration __init__ v quiet_bus))).

(** ** The bit and field accessors as one family *)

Inductive accessor : Type :=
| ABit (d : RWBit)
| ABits (d : RWBits).

(** The bit and field accessors of the class, in source order. *)
Definition accessors : list accessor :=
  [ABit lost_power; ABits clockout_frequency; ABit alarm_interrupt; ABit alarm_status;
   ABit timerA_enabled; ABits timerA_frequency; ABits timerA_value; ABit timerA_interrupt;
   ABit timerA_status; ABit timerA_pulsed; ABit high_capacitance;
   ABit calibration_schedule_per_minute; ABits calibration; ABits ram_byte].

Definition accessor_register (a : accessor) : Z :=
  match a with
  | ABit d => bit_register d
  | ABits d => bits_register d
  end.

Definition accessor_offset (a : accessor) : Z :=
  match a with
  | ABit d => bit_index d
  | ABits d => lowest_bit d
  end.

Definition accessor_width (a : accessor) : Z :=
  match a with
  | ABit _ => 1
  | ABits d => num_bits d
  end.

(** Two accessors that sit in different registers or in bit spans of one
    register that do not meet. *)
Definition apart (f g : accessor) : bool :=
  negb (accessor_register f =? accessor_register g)
  || (accessor_offset f + accessor_width f <=? accessor_offset g)
  || (accessor_offset g + accessor_width g <=? accessor_offset f).

(** A chip with the registers [m] behind a bus that does not fail. *)
Definition on_chip (m : registers) : bus := mkBus m [] [].

(** Some write to the accessor, of a value the field can hold, went through
    and took the bus from [b] to [b']. *)
Definition written (a : accessor) (self : PCF85063A) (b b' : bus) : Prop :=
  match a with
  | ABit d => exists value : bool, RWBit_set d self value b = (Ok tt, b')
  | ABits d => exists value : Z,
      0 <= value < 2 ^ num_bits d /\ RWBits_set d self value b = (Ok tt, b')
  end.

(** The accessor reads the same on the chips [m] and [m']. *)
Definition reads_same (a : accessor) (self : PCF85063A) (m m' : registers) : Prop :=
  match a with
  | ABit d => fst (RWBit_get d self (on_chip m')) = fst (RWBit_get d self (on_chip m))
  | ABits d => fst (RWBits_get d self (on_chip m')) = fst (RWBits_get d self (on_chip m))
  end.

(** The date-time and the alarm read the same on the chips [m] and [m']. *)
Definition blocks_read_same (self : PCF85063A) (m m' : registers) : Prop :=
  fst (datetime self (on_chip m')) = fst (datetime self (on_chip m)) /\
  fst (BCDAlarmTimeRegister_get alarm self (on_chip m'))
    = fst (BCDAlarmTimeRegister_get alarm self (on_chip m)).

(** The named selector values of the class. *)
Definition clockout_frequencies : list Z :=
  [CLOCKOUT_FREQ_32KHZ; CLOCKOUT_FREQ_16KHZ; CLOCKOUT_FREQ_8KHZ; CLOCKOUT_FREQ_4KHZ;
   CLOCKOUT_FREQ_2KHZ; CLOCKOUT_FREQ_1KHZ; CLOCKOUT_FREQ_1HZ; CLOCKOUT_FREQ_DISABLED].

Definition timer_frequencies : list Z :=
  [TIMER_FREQ_4KHZ; TIMER_FREQ_64HZ; TIMER_FREQ_1HZ; TIMER_FREQ_1_60HZ].

Definition is_read (a : access) : bool :=
  match a with
  | GetBit _ | GetBits _ | GetDatetime | GetAlarm => true
  | SetBit _ _ | SetBits _ _ | SetDatetime _ | SetAlarm _ => false
  end.

Definition is_datetime_set (a : access) : bool :=
  match a with
  | SetDatetime _ => true
  | _ => false
  end.

Definition failed {A : Type} (r : result A) : bool :=
  match r with
  | Ok _ => false
  | Err _ => true
  end.

(** A second calendar value, and an alarm at 07:30 on any day. *)
Definition new_year : struct_time := mk_struct_time 2024 1 1 0 0 0 0 (-1) (-1).

Definition morning_alarm : alarm_time :=
  mk_alarm_time None (Some 30) (Some 7) None None.

(** The read fails. *)
Definition read_fails : bus := mkBus power_lost [true] [].

(** * Properties *)

(** ** Checking a property of every number below a bound *)

Lemma all_below_spec (n : nat) (p : Z -> bool) :
  all_below n p = true -> forall z, 0 <= z < Z.of_nat n -> p z = true.
Proof.
  induction n as [|k IH]; intros Hall z Hz.
  - simpl in Hz. lia.
  - simpl in Hall. apply andb_true_iff in Hall as [Hk Hrest].
    destruct (Z.eq_dec z (Z.of_nat k)) as [->|Hne]; [exact Hk|].
    apply IH; [exact Hrest|lia].
Qed.

(** ** The register file under block transfers *)

Lemma set_reg_same (m : registers) (a v : Z) : set_reg m a v a = v.
Proof. unfold set_reg. now rewrite Z.eqb_refl. Qed.

Lemma set_reg_other (m : registers) (a v x : Z) : x <> a -> set_reg m a v x = m x.
Proof. intros H. unfold set_reg. now apply Z.eqb_neq in H as ->. Qed.

Lemma store_outside (bytes : list Z) :
  forall (m : registers) (a x : Z),
    x < a \/ a + Z.of_nat (List.length bytes) <= x -> store m a bytes x = m x.
Proof.
  induction bytes as [|v rest IH]; intros m a x Hx; [reflexivity|].
  cbn [store List.length] in *.
  rewrite IH by lia. apply set_reg_other. lia.
Qed.

Lemma store_inside (bytes : list Z) :
  forall (m : registers) (a : Z) (k : nat),
    (k < List.length bytes)%nat -> store m a bytes (a + Z.of_nat k) = nth k bytes 0.
Proof.
  induction bytes as [|v rest IH]; intros m a k Hk; cbn [List.length] in Hk; [lia|].
  cbn [store]. destruct k as [|k].
  - rewrite Z.add_0_r, store_outside by lia. apply set_reg_same.
  - replace (a + Z.of_nat (S k)) with (a + 1 + Z.of_nat k) by lia.
    rewrite IH by lia. reflexivity.
Qed.

Lemma store_first (m : registers) (a v : Z) (rest : list Z) :
  store m a (v :: rest) a = v.
Proof.
  cbn [store]. rewrite store_outside by lia. apply set_reg_same.
Qed.

Lemma load_store (bytes : list Z) :
  forall (m : registers) (a : Z), load (store m a bytes) a (List.length bytes) = bytes.
Proof.
  induction bytes as [|v rest IH]; intros m a; [reflexivity|].
  cbn [List.length load]. f_equal.
  - exact (eq_trans (f_equal _ (eq_sym (Z.add_0_r a)))
                    (store_inside (v :: rest) m a 0 (Nat.lt_0_succ _))).
  - cbn [store]. apply IH.
Qed.

(** ** Runs of the primitives *)

Lemma issued_intro {A : Type} (m : M A) (b : bus) (l : list transaction) :
  trace (snd (m b)) = trace b ++ l -> issued m b = l.
Proof.
  unfold issued. intros ->. induction (trace b) as [|t ts IH]; [reflexivity|exact IH].
Qed.

Lemma read_byte_run (obj : PCF85063A) (addr : Z) (b : bus) :
  read_byte obj addr b =
    (if hd false (faults b) then Err TransportError else Ok (regs b addr),
     mkBus (regs b) (tl (faults b))
           (trace b ++ [TxWriteThenRead (address_of obj) [addr] 1])).
Proof.
  unfold read_byte, bind, write_then_read, ret.
  destruct (hd false (faults b)); reflexivity.
Qed.

Lemma write_run (dev : Z) (pointer : Z) (data : list Z) (b : bus) :
  write dev (pointer :: data) b =
    (if hd false (faults b) then Err TransportError else Ok tt,
     mkBus (if hd false (faults b) then regs b else store (regs b) pointer data)
           (tl (faults b)) (trace b ++ [TxWrite dev (pointer :: data)])).
Proof. unfold write. destruct (hd false (faults b)); reflexivity. Qed.

Lemma nth0_hd (l : list bool) : nth 0 l false = hd false l.
Proof. destruct l; reflexivity. Qed.

Lemma nth1_hd_tl (l : list bool) : nth 1 l false = hd false (tl l).
Proof. destruct l as [|? [|? ?]]; reflexivity. Qed.

Lemma nth2_hd_tl (l : list bool) : nth 2 l false = hd false (tl (tl l)).
Proof. destruct l as [|? [|? [|? ?]]]; reflexivity. Qed.

Lemma skipn2_tl (l : list bool) : skipn 2 l = tl (tl l).
Proof. destruct l as [|? [|? ?]]; reflexivity. Qed.

Lemma skipn3_tl (l : list bool) : skipn 3 l = tl (tl (tl l)).
Proof. destruct l as [|? [|? [|? ?]]]; reflexivity. Qed.

Lemma RWBit_set_run (d : RWBit) (obj : PCF85063A) (value : bool) (b : bus) :
  nth 0 (faults b) false = false ->
  RWBit_set d obj value b =
    (if nth 1 (faults b) false then Err TransportError else Ok tt,
     mkBus (if nth 1 (faults b) false then regs b
            else set_reg (regs b) (bit_register d)
                         (with_bit (regs b (bit_register d)) (bit_index d) value))
           (skipn 2 (faults b))
           (trace b ++ [TxWriteThenRead (address_of obj) [bit_register d] 1;
                        TxWrite (address_of obj)
                          [bit_register d;
                           with_bit (regs b (bit_register d)) (bit_index d) value]])).
Proof.
  intros H0. rewrite nth0_hd in H0. rewrite nth1_hd_tl, skipn2_tl.
  unfold RWBit_set, bind. rewrite read_byte_run, H0. cbv zeta.
  rewrite write_run. cbn [faults regs trace store]. rewrite <- app_assoc.
  reflexivity.
Qed.

Lemma RWBits_set_run (d : RWBits) (obj : PCF85063A) (value : Z) (b : bus) :
  nth 0 (faults b) false = false ->
  RWBits_set d obj value b =
    (if nth 1 (faults b) false then Err TransportError else Ok tt,
     mkBus (if nth 1 (faults b) false then regs b
            else set_reg (regs b) (bits_register d)
                   (with_field (regs b (bits_register d)) (lowest_bit d) (num_bits d) value))
           (skipn 2 (faults b))
           (trace b ++ [TxWriteThenRead (address_of obj) [bits_register d] 1;
                        TxWrite (address_of obj)
                          [bits_register d;
                           with_field (regs b (bits_register d)) (lowest_bit d)
                                      (num_bits d) value]])).
Proof.
  intros H0. rewrite nth0_hd in H0. rewrite nth1_hd_tl, skipn2_tl.
  unfold RWBits_set, bind. rewrite read_byte_run, H0. cbv zeta.
  rewrite write_run. cbn [faults regs trace store]. rewrite <- app_assoc.
  reflexivity.
Qed.

(** ** The date-time setter *)

Lemma clear_bit_7 (byte : Z) : Z.testbit (Z.land byte (Z.lnot (Z.shiftl 1 7))) 7 = false.
Proof.
  rewrite Z.land_spec, Z.lnot_spec by lia.
  change (Z.testbit (Z.shiftl 1 7) 7) with true. apply andb_false_r.
Qed.

Lemma encode_datetime_length (value : struct_time) :
  List.length (encode_datetime datetime_register value) = 7%nat.
Proof. reflexivity. Qed.

Lemma datetime_setter_run (self : PCF85063A) (value : struct_time) (b : bus) :
  nth 0 (faults b) false = false ->
  nth 1 (faults b) false = false ->
  datetime_setter self value b =
    (if nth 2 (faults b) false then Err TransportError else Ok tt,
     mkBus (if nth 2 (faults b) false
            then set_reg (regs b) 0x04 (Z.land (regs b 0x04) (Z.lnot (Z.shiftl 1 7)))
            else store (set_reg (regs b) 0x04 (Z.land (regs b 0x04) (Z.lnot (Z.shiftl 1 7))))
                       0x04 (encode_datetime datetime_register value))
           (skipn 3 (faults b))
           (trace b ++
              [TxWriteThenRead (address_of self) [0x04] 1;
               TxWrite (address_of self) [0x04; Z.land (regs b 0x04) (Z.lnot (Z.shiftl 1 7))];
               TxWrite (address_of self) (0x04 :: encode_datetime datetime_register value)])).
Proof.
  intros H0 H1. unfold datetime_setter, bind.
  rewrite (RWBit_set_run lost_power self false b H0), H1.
  unfold BCDDateTimeRegister_set. rewrite write_run.
  cbn [faults regs trace lost_power bit_register bit_index datetime_register dt_register with_bit].
  rewrite nth2_hd_tl, skipn3_tl, skipn2_tl, <- app_assoc. reflexivity.
Qed.

(** C1, as the code has it: with the read and the first write going
    through, assigning [datetime] reads register 0x04, writes it back with
    bit 7 (the power-lost flag) cleared, and only then writes the seven
    BCD-encoded bytes at 0x04 in one transaction: two writes, flag first,
    time second.  When that second write fails the caller gets the transport
    error and the chip is left with the flag cleared and the time not
    written. *)
Theorem datetime_setter_flag_then_time (self : PCF85063A) (value : struct_time) (b : bus) :
  nth 0 (faults b) false = false ->
  nth 1 (faults b) false = false ->
  let a := address_of self in
  let cleared := Z.land (regs b 0x04) (Z.lnot (Z.shiftl 1 7)) in
  let block := encode_datetime datetime_register value in
  Z.testbit cleared 7 = false /\
  List.length block = 7%nat /\
  datetime_setter self value b =
    (if nth 2 (faults b) false then Err TransportError else Ok tt,
     mkBus (if nth 2 (faults b) false then set_reg (regs b) 0x04 cleared
            else store (set_reg (regs b) 0x04 cleared) 0x04 block)
           (skipn 3 (faults b))
           (trace b ++ [TxWriteThenRead a [0x04] 1;
                        TxWrite a [0x04; cleared];
                        TxWrite a (0x04 :: block)])).
Proof.
  intros H0 H1 a cleared block. split; [apply clear_bit_7|].
  split; [reflexivity|]. apply datetime_setter_run; assumption.
Qed.

Lemma datetime_setter_flag_then_time_witness :
  nth 0 (faults second_write_fails) false = false /\
  nth 1 (faults second_write_fails) false = false /\
  fst (datetime_setter __init__ example_time second_write_fails) = Err TransportError /\
  filter is_write (trace (snd (datetime_setter __init__ example_time second_write_fails))) =
    [TxWrite 0x51 [0x04; 0x00];
     TxWrite 0x51 [0x04; 0x15; 0x14; 0x15; 0x29; 0x00; 0x10; 0x17]].
Proof.
  split; [reflexivity|]. split; [reflexivity|].
  destruct (datetime_setter_flag_then_time __init__ example_time second_write_fails
              eq_refl eq_refl) as (_ & _ & E).
  rewrite E. split; reflexivity.
Defined.

(** C1, as the spec states it, fails: on a bus without faults the first
    write is the flag byte and not the seven-byte block; and when the first
    write goes through and the second fails, the flag that was set is found
    cleared and the time registers do not hold the time. *)
Lemma datetime_setter_not_block_then_flag :
  ~ block_then_flag __init__ example_time quiet_bus /\
  fst (datetime_setter __init__ example_time second_write_fails) = Err TransportError /\
  Z.testbit (regs second_write_fails 0x04) 7 = true /\
  Z.testbit (regs (snd (datetime_setter __init__ example_time second_write_fails)) 0x04) 7 = false /\
  load (regs (snd (datetime_setter __init__ example_time second_write_fails))) 0x04 7
    <> encode_datetime datetime_register example_time.
Proof.
  split.
  - intros [flag_byte H]. vm_compute in H. discriminate H.
  - repeat split; try reflexivity. vm_compute. discriminate.
Qed.

(** ** BCD encoding *)

Lemma bcd_round_trip (field : string) (n : Z) :
  0 <= n < 100 -> bcd2bin field (bin2bcd n) = Ok n.
Proof.
  intros Hn.
  pose (check := fun k =>
    negb (bad_bcd (bin2bcd k)) &&
    (Z.land (Z.shiftr (bin2bcd k) 4) 0xF * 10 + Z.land (bin2bcd k) 0xF =? k)).
  assert (Hall : all_below 100 check = true) by (vm_compute; reflexivity).
  pose proof (all_below_spec 100 check Hall n Hn) as H. unfold check in H.
  apply andb_true_iff in H as [Hgood Hval].
  apply negb_true_iff in Hgood. apply Z.eqb_eq in Hval.
  unfold bcd2bin. rewrite Hgood. f_equal. exact Hval.
Qed.

Lemma bcd_seconds_fit (n : Z) :
  0 <= n < 60 ->
  Z.testbit (bin2bcd n) 7 = false /\ Z.land (bin2bcd n) 0x7F = bin2bcd n.
Proof.
  intros Hn.
  pose (check := fun k =>
    negb (Z.testbit (bin2bcd k) 7) && (Z.land (bin2bcd k) 0x7F =? bin2bcd k)).
  assert (Hall : all_below 60 check = true) by (vm_compute; reflexivity).
  pose proof (all_below_spec 60 check Hall n Hn) as H. unfold check in H.
  apply andb_true_iff in H as [Hbit Hmask].
  apply negb_true_iff in Hbit. apply Z.eqb_eq in Hmask. split; assumption.
Qed.

Lemma weekday_round_trip (n : Z) : 0 <= n < 8 -> Z.land (Z.land (n + 0) 7) 7 - 0 = n.
Proof.
  intros Hn.
  pose (check := fun k => Z.land (Z.land (k + 0) 7) 7 - 0 =? k).
  assert (Hall : all_below 8 check = true) by (vm_compute; reflexivity).
  apply Z.eqb_eq. exact (all_below_spec 8 check Hall n Hn).
Qed.

(** The boundary of section 8: second 59 is the byte 0x59 and back. *)
Example bcd_boundary : bin2bcd 59 = 0x59 /\ bcd2bin "tm_sec" 0x59 = Ok 59.
Proof. split; reflexivity. Qed.

(** ** Valid calendar values *)

Lemma days_in_month_le (year mon : Z) : days_in_month year mon <= 31.
Proof.
  unfold days_in_month.
  destruct (mon =? 2); [destruct (is_leap year); lia|].
  destruct ((mon =? 4) || (mon =? 6) || (mon =? 9) || (mon =? 11)); lia.
Qed.

Lemma valid_time_spec (t : struct_time) :
  valid_time t = true ->
  2000 <= tm_year t <= 2099 /\ 1 <= tm_mon t <= 12 /\ 1 <= tm_mday t <= 31 /\
  0 <= tm_wday t <= 6 /\ 0 <= tm_hour t <= 23 /\ 0 <= tm_min t <= 59 /\
  0 <= tm_sec t <= 59.
Proof.
  unfold valid_time. intros H.
  repeat (apply andb_true_iff in H as [H ?]).
  repeat match goal with
         | E : (_ <=? _) = true |- _ => apply Z.leb_le in E
         end.
  pose proof (days_in_month_le (tm_year t) (tm_mon t)). lia.
Qed.

(** ** Encoding then decoding a date-time *)

Lemma decode_encode_datetime (value : struct_time) :
  valid_time value = true ->
  decode_datetime datetime_register (encode_datetime datetime_register value)
    = Ok (without_derived value).
Proof.
  intros Hv. apply valid_time_spec in Hv as (Hy & Hmo & Hd & Hw & Hh & Hmi & Hs).
  unfold decode_datetime, encode_datetime.
  cbn [datetime_register weekday_first dt_weekday_start app nth].
  destruct (bcd_seconds_fit (tm_sec value)) as [_ ->]; [lia|].
  rewrite Z.mod_small by lia.
  rewrite (bcd_round_trip "tm_sec" (tm_sec value)) by lia.
  rewrite (bcd_round_trip "tm_min" (tm_min value)) by lia.
  rewrite (bcd_round_trip "tm_hour" (tm_hour value)) by lia.
  rewrite (bcd_round_trip "tm_mday" (tm_mday value)) by lia.
  rewrite (bcd_round_trip "tm_mon" (tm_mon value)) by lia.
  rewrite (bcd_round_trip "tm_year" (tm_year value - 2000)) by lia.
  cbn [and_then]. rewrite weekday_round_trip by lia.
  unfold without_derived.
  replace (tm_year value - 2000 + 2000) with (tm_year value) by lia. reflexivity.
Qed.

(** ** Runs of the date-time property *)

Lemma datetime_setter_ok (self : PCF85063A) (value : struct_time) (b b' : bus) :
  datetime_setter self value b = (Ok tt, b') ->
  nth 0 (faults b) false = false /\ nth 1 (faults b) false = false /\
  nth 2 (faults b) false = false.
Proof.
  intros H.
  destruct (nth 0 (faults b) false) eqn:E0.
  - exfalso. rewrite nth0_hd in E0.
    unfold datetime_setter, RWBit_set, bind in H. rewrite read_byte_run, E0 in H.
    discriminate H.
  - destruct (nth 1 (faults b) false) eqn:E1.
    + exfalso. unfold datetime_setter, bind in H.
      rewrite (RWBit_set_run lost_power self false b E0), E1 in H. discriminate H.
    + rewrite (datetime_setter_run self value b E0 E1) in H.
      destruct (nth 2 (faults b) false); [discriminate H|]. repeat split.
Qed.

Lemma datetime_setter_regs (self : PCF85063A) (value : struct_time) (b b' : bus) :
  datetime_setter self value b = (Ok tt, b') ->
  regs b' = store (set_reg (regs b) 0x04 (Z.land (regs b 0x04) (Z.lnot (Z.shiftl 1 7))))
                  0x04 (encode_datetime datetime_register value).
Proof.
  intros H. destruct (datetime_setter_ok self value b b' H) as (E0 & E1 & E2).
  rewrite (datetime_setter_run self value b E0 E1), E2 in H.
  injection H as <-. reflexivity.
Qed.

Lemma datetime_run (self : PCF85063A) (b : bus) :
  datetime self b =
    (if hd false (faults b) then Err TransportError
     else decode_datetime datetime_register (load (regs b) 0x04 7),
     mkBus (regs b) (tl (faults b))
           (trace b ++ [TxWriteThenRead (address_of self) [0x04] 7])).
Proof.
  unfold datetime, BCDDateTimeRegister_get, bind, write_then_read, lift.
  destruct (hd false (faults b)); reflexivity.
Qed.

Lemma RWBit_get_run (d : RWBit) (self : PCF85063A) (b : bus) :
  RWBit_get d self b =
    (if hd false (faults b) then Err TransportError
     else Ok (Z.testbit (regs b (bit_register d)) (bit_index d)),
     mkBus (regs b) (tl (faults b))
           (trace b ++ [TxWriteThenRead (address_of self) [bit_register d] 1])).
Proof.
  unfold RWBit_get, bind. rewrite read_byte_run.
  destruct (hd false (faults b)); reflexivity.
Qed.

(** C2: for every valid [struct_time], once the assignment to [datetime]
    has gone through, bit 7 of register 0x04 is clear and [lost_power]
    reads false, whatever the registers held before. *)
Theorem lost_power_false_after_datetime_set
    (self : PCF85063A) (value : struct_time) (b b' : bus) :
  valid_time value = true ->
  datetime_setter self value b = (Ok tt, b') ->
  Z.testbit (regs b' 0x04) 7 = false /\
  (hd false (faults b') = false -> fst (RWBit_get lost_power self b') = Ok false).
Proof.
  intros Hv Hset.
  assert (Hbit : Z.testbit (regs b' 0x04) 7 = false).
  { rewrite (datetime_setter_regs self value b b' Hset).
    unfold encode_datetime. cbn [app]. rewrite store_first.
    apply valid_time_spec in Hv. apply bcd_seconds_fit. lia. }
  split; [exact Hbit|]. intros Hread.
  rewrite RWBit_get_run, Hread. cbn [fst lost_power bit_register bit_index].
  now rewrite Hbit.
Qed.

Lemma lost_power_false_after_datetime_set_witness :
  valid_time example_time = true /\
  datetime_setter __init__ example_time quiet_bus
    = (Ok tt, snd (datetime_setter __init__ example_time quiet_bus)) /\
  Z.testbit (regs quiet_bus 0x04) 7 = true /\
  fst (RWBit_get lost_power __init__ (snd (datetime_setter __init__ example_time quiet_bus)))
    = Ok false.
Proof.
  split; [reflexivity|]. split; [reflexivity|]. split; [reflexivity|].
  exact (proj2 (lost_power_false_after_datetime_set __init__ example_time quiet_bus
                  (snd (datetime_setter __init__ example_time quiet_bus))
                  eq_refl eq_refl) eq_refl).
Defined.

(** C3: for every valid calendar value, decoding the seven bytes it encodes
    to gives the value back; and after it has been assigned to [datetime],
    reading [datetime] returns it (the day of the year and the daylight
    flag, which the chip does not hold, read as unknown). *)
Theorem datetime_round_trip (self : PCF85063A) (value : struct_time) (b b' : bus) :
  valid_time value = true ->
  datetime_setter self value b = (Ok tt, b') ->
  hd false (faults b') = false ->
  decode_datetime datetime_register (encode_datetime datetime_register value)
    = Ok (without_derived value) /\
  fst (datetime self b') = Ok (without_derived value).
Proof.
  intros Hv Hset Hread. split; [apply decode_encode_datetime; exact Hv|].
  rewrite datetime_run, Hread. cbn [fst].
  rewrite (datetime_setter_regs self value b b' Hset).
  rewrite (load_store (encode_datetime datetime_register value)).
  apply decode_encode_datetime. exact Hv.
Qed.

Lemma datetime_round_trip_witness :
  valid_time example_time = true /\
  datetime_setter __init__ example_time quiet_bus
    = (Ok tt, snd (datetime_setter __init__ example_time quiet_bus)) /\
  fst (datetime __init__ (snd (datetime_setter __init__ example_time quiet_bus)))
    = Ok example_time.
Proof.
  split; [reflexivity|]. split; [reflexivity|].
  exact (proj2 (datetime_round_trip __init__ example_time quiet_bus
                  (snd (datetime_setter __init__ example_time quiet_bus))
                  eq_refl eq_refl eq_refl)).
Defined.

(** ** Bits and fields of a byte *)

Lemma testbit_one_shifted (bit n : Z) :
  0 <= bit -> 0 <= n -> Z.testbit (Z.shiftl 1 bit) n = (n =? bit).
Proof.
  intros Hb Hn. rewrite Z.shiftl_spec by lia.
  destruct (Z.eqb_spec n bit) as [->|Hne].
  - now rewrite Z.sub_diag.
  - destruct (Z.lt_ge_cases n bit) as [Hlt|Hge].
    + apply Z.testbit_neg_r. lia.
    + apply Z.bits_above_log2; [lia|]. change (Z.log2 1) with 0. lia.
Qed.

Lemma with_bit_spec (byte bit : Z) (value : bool) (n : Z) :
  0 <= bit -> 0 <= n ->
  Z.testbit (with_bit byte bit value) n = if n =? bit then value else Z.testbit byte n.
Proof.
  intros Hb Hn. unfold with_bit. destruct value.
  - rewrite Z.lor_spec, testbit_one_shifted by lia.
    destruct (n =? bit); [apply orb_true_r|apply orb_false_r].
  - rewrite Z.land_spec, Z.lnot_spec, testbit_one_shifted by lia.
    destruct (n =? bit); [apply andb_false_r|apply andb_true_r].
Qed.

Lemma testbit_field_mask (width offset n : Z) :
  0 <= width -> 0 <= offset -> 0 <= n ->
  Z.testbit (field_mask width offset) n = in_field offset width n.
Proof.
  intros Hw Ho Hn. unfold field_mask, in_field. rewrite Z.shiftl_spec by lia.
  destruct (Z.leb_spec offset n) as [Hle|Hlt].
  - rewrite Z.testbit_ones_nonneg by lia. cbn [andb].
    destruct (Z.ltb_spec (n - offset) width), (Z.ltb_spec n (offset + width));
      (reflexivity || lia).
  - apply Z.testbit_neg_r. lia.
Qed.

Lemma with_field_spec (byte offset width value n : Z) :
  0 <= width -> 0 <= offset -> 0 <= n ->
  Z.testbit (with_field byte offset width value) n =
    if in_field offset width n then Z.testbit value (n - offset) else Z.testbit byte n.
Proof.
  intros Hw Ho Hn. unfold with_field.
  rewrite Z.lor_spec, !Z.land_spec, Z.lnot_spec, testbit_field_mask, Z.shiftl_spec by lia.
  destruct (in_field offset width n); cbn [negb].
  - now rewrite andb_false_r, andb_true_r.
  - now rewrite andb_true_r, andb_false_r, orb_false_r.
Qed.

Lemma extract_field (byte offset width : Z) :
  0 <= width -> 0 <= offset ->
  Z.shiftr (Z.land byte (field_mask width offset)) offset
    = (byte / 2 ^ offset) mod 2 ^ width.
Proof.
  intros Hw Ho. rewrite <- Z.land_ones, <- Z.shiftr_div_pow2 by lia.
  apply Z.bits_inj'. intros n Hn.
  rewrite Z.shiftr_spec, !Z.land_spec, testbit_field_mask, Z.shiftr_spec,
    Z.testbit_ones_nonneg by lia.
  f_equal. unfold in_field.
  destruct (Z.leb_spec offset (n + offset)), (Z.ltb_spec (n + offset) (offset + width)),
    (Z.ltb_spec n width); (reflexivity || lia).
Qed.

Lemma extract_with_field (byte offset width value : Z) :
  0 <= width -> 0 <= offset ->
  (with_field byte offset width value / 2 ^ offset) mod 2 ^ width = value mod 2 ^ width.
Proof.
  intros Hw Ho. rewrite <- !Z.land_ones, <- Z.shiftr_div_pow2 by lia.
  apply Z.bits_inj'. intros n Hn.
  rewrite !Z.land_spec, Z.shiftr_spec, with_field_spec, Z.testbit_ones_nonneg by lia.
  unfold in_field.
  destruct (Z.leb_spec offset (n + offset)), (Z.ltb_spec (n + offset) (offset + width)),
    (Z.ltb_spec n width); cbn [andb]; try lia;
    rewrite ?andb_false_r; try reflexivity.
  now replace (n + offset - offset) with n by lia.
Qed.

Lemma sign_bit_threshold (width raw : Z) :
  1 <= width -> 0 <= raw < 2 ^ width ->
  Z.testbit raw (width - 1) = (2 ^ (width - 1) <=? raw).
Proof.
  intros Hw Hraw.
  assert (Hp : 0 < 2 ^ (width - 1)) by (apply Z.pow_pos_nonneg; lia).
  assert (H2 : 2 ^ width = 2 * 2 ^ (width - 1)).
  { replace width with (Z.succ (width - 1)) at 1 by lia. apply Z.pow_succ_r. lia. }
  pose proof (Z.testbit_spec' raw (width - 1) ltac:(lia)) as Hspec.
  destruct (Z.leb_spec (2 ^ (width - 1)) raw) as [Hle|Hlt].
  - assert (Hq : raw / 2 ^ (width - 1) = 1).
    { symmetry. apply (Z.div_unique raw _ 1 (raw - 2 ^ (width - 1))); lia. }
    rewrite Hq in Hspec. destruct (Z.testbit raw (width - 1)); [reflexivity|discriminate].
  - rewrite Z.div_small in Hspec by lia.
    destruct (Z.testbit raw (width - 1)); [discriminate|reflexivity].
Qed.

Lemma RWBits_get_run (d : RWBits) (self : PCF85063A) (b : bus) :
  0 <= lowest_bit d -> 1 <= num_bits d ->
  RWBits_get d self b =
    (if hd false (faults b) then Err TransportError
     else Ok (field_value (regs b (bits_register d)) (lowest_bit d) (num_bits d) (signed d)),
     mkBus (regs b) (tl (faults b))
           (trace b ++ [TxWriteThenRead (address_of self) [bits_register d] 1])).
Proof.
  intros Ho Hw. unfold RWBits_get, bind. rewrite read_byte_run.
  destruct (hd false (faults b)); [reflexivity|].
  cbv zeta. unfold ret. f_equal. f_equal.
  rewrite extract_field by lia. unfold field_value, sign_extend.
  destruct (signed d); [|reflexivity]. cbn [andb].
  rewrite sign_bit_threshold; [reflexivity|lia|].
  apply Z.mod_pos_bound. apply Z.pow_pos_nonneg; lia.
Qed.

Lemma RWBit_set_regs (d : RWBit) (self : PCF85063A) (value : bool) (b b' : bus) :
  RWBit_set d self value b = (Ok tt, b') ->
  regs b' = set_reg (regs b) (bit_register d)
                    (with_bit (regs b (bit_register d)) (bit_index d) value).
Proof.
  intros H. destruct (nth 0 (faults b) false) eqn:E0.
  - exfalso. rewrite nth0_hd in E0. unfold RWBit_set, bind in H.
    rewrite read_byte_run, E0 in H. discriminate H.
  - rewrite (RWBit_set_run d self value b E0) in H.
    destruct (nth 1 (faults b) false); [discriminate H|].
    injection H as <-. reflexivity.
Qed.

Lemma RWBits_set_regs (d : RWBits) (self : PCF85063A) (value : Z) (b b' : bus) :
  RWBits_set d self value b = (Ok tt, b') ->
  regs b' = set_reg (regs b) (bits_register d)
              (with_field (regs b (bits_register d)) (lowest_bit d) (num_bits d) value).
Proof.
  intros H. destruct (nth 0 (faults b) false) eqn:E0.
  - exfalso. rewrite nth0_hd in E0. unfold RWBits_set, bind in H.
    rewrite read_byte_run, E0 in H. discriminate H.
  - rewrite (RWBits_set_run d self value b E0) in H.
    destruct (nth 1 (faults b) false); [discriminate H|].
    injection H as <-. reflexivity.
Qed.

(** ** The register map *)

Lemma bit_accessor_ok (d : RWBit) :
  0 <= bit_index d -> bit_accessor_at d (bit_register d) (bit_index d).
Proof.
  intros Hb self b. split; [apply RWBit_get_run|].
  intros value. split.
  - intros H0 H1. pose proof (RWBit_set_run d self value b H0) as Hrun.
    rewrite H1 in Hrun. eexists. split; [exact Hrun|].
    apply issued_intro. rewrite Hrun. cbn [snd trace regs].
    now rewrite set_reg_same.
  - intros b' Hset. rewrite (RWBit_set_regs d self value b b' Hset). split.
    + intros x Hx. now apply set_reg_other.
    + intros n Hn. rewrite set_reg_same. now apply with_bit_spec.
Qed.

Lemma field_accessor_ok (d : RWBits) :
  0 <= lowest_bit d -> 1 <= num_bits d ->
  field_accessor_at d (bits_register d) (lowest_bit d) (num_bits d) (signed d).
Proof.
  intros Ho Hw self b. split; [now apply RWBits_get_run|].
  intros value. split.
  - intros H0 H1. pose proof (RWBits_set_run d self value b H0) as Hrun.
    rewrite H1 in Hrun. eexists. split; [exact Hrun|].
    apply issued_intro. rewrite Hrun. cbn [snd trace regs].
    now rewrite set_reg_same.
  - intros b' Hset. rewrite (RWBits_set_regs d self value b b' Hset). split.
    + intros x Hx. now apply set_reg_other.
    + intros n Hn. rewrite set_reg_same. apply with_field_spec; lia.
Qed.

Lemma datetime_block_ok : datetime_block_at 0x04 7.
Proof.
  intros self b. split; [apply datetime_run|].
  intros value. split.
  - intros H0 H1 H2. pose proof (datetime_setter_run self value b H0 H1) as Hrun.
    rewrite H2 in Hrun. eexists. split; [exact Hrun|]. split; [reflexivity|].
    rewrite (issued_intro _ b _ (f_equal (fun p => trace (snd p)) Hrun)).
    cbn [In]. tauto.
  - intros b' Hset. rewrite (datetime_setter_regs self value b b' Hset). split.
    + exact (load_store (encode_datetime datetime_register value) _ 0x04).
    + intros x Hx. rewrite store_outside by (rewrite encode_datetime_length; lia).
      apply set_reg_other. lia.
Qed.

Lemma alarm_set_regs (self : PCF85063A) (value : alarm_time) (b b' : bus) :
  BCDAlarmTimeRegister_set alarm self value b = (Ok tt, b') ->
  regs b' = store (regs b) 0x0B (encode_alarm alarm value).
Proof.
  intros H. unfold BCDAlarmTimeRegister_set in H. rewrite write_run in H.
  destruct (hd false (faults b)); [discriminate H|].
  injection H as <-. reflexivity.
Qed.

Lemma encode_alarm_length (value : alarm_time) :
  List.length (encode_alarm alarm value) = 5%nat.
Proof. reflexivity. Qed.

Lemma alarm_block_ok : alarm_block_at 0x0B 5 0x0E 0x0F.
Proof.
  intros self b. split.
  - unfold BCDAlarmTimeRegister_get, bind, write_then_read, lift.
    destruct (hd false (faults b)); reflexivity.
  - intros value. split.
    + intros H0. rewrite nth0_hd in H0.
      assert (Hrun : BCDAlarmTimeRegister_set alarm self value b =
                (Ok tt, mkBus (store (regs b) 0x0B (encode_alarm alarm value))
                              (tl (faults b))
                              (trace b ++ [TxWrite (address_of self)
                                             (0x0B :: encode_alarm alarm value)]))).
      { unfold BCDAlarmTimeRegister_set. rewrite write_run, H0. reflexivity. }
      eexists. split; [exact Hrun|]. split; [reflexivity|].
      exact (issued_intro _ b _ (f_equal (fun p => trace (snd p)) Hrun)).
    + intros b' Hset. rewrite (alarm_set_regs self value b b' Hset).
      split; [|split; [|split]].
      * exact (load_store (encode_alarm alarm value) (regs b) 0x0B).
      * intros x Hx. apply store_outside. rewrite encode_alarm_length. lia.
      * exact (store_inside (encode_alarm alarm value) (regs b) 0x0B 3 ltac:(cbn; lia)).
      * exact (store_inside (encode_alarm alarm value) (regs b) 0x0B 4 ltac:(cbn; lia)).
Qed.

(** C5: every accessor of the class sits where the register map of the
    spec puts it: the register address, bit offset, width and signedness of
    each bit and field, the seven-byte date-time block at 0x04 and the
    five-byte alarm block at 0x0B with the day in 0x0E and the weekday in
    0x0F.  Each read returns what is held there; each write, unless the bus
    fails one of its transactions, goes through, is sent to that address,
    and changes exactly that bit, field or block. *)
Theorem register_map_exact :
  bit_accessor_at high_capacitance 0x00 0 /\
  field_accessor_at clockout_frequency 0x01 0 3 false /\
  bit_accessor_at alarm_interrupt 0x01 7 /\
  bit_accessor_at alarm_status 0x01 6 /\
  bit_accessor_at timerA_status 0x01 3 /\
  bit_accessor_at calibration_schedule_per_minute 0x02 7 /\
  field_accessor_at calibration 0x02 0 7 true /\
  field_accessor_at ram_byte 0x03 0 8 false /\
  datetime_block_at 0x04 7 /\
  bit_accessor_at lost_power 0x04 7 /\
  alarm_block_at 0x0B 5 0x0E 0x0F /\
  field_accessor_at timerA_value 0x10 0 8 false /\
  bit_accessor_at timerA_pulsed 0x11 0 /\
  bit_accessor_at timerA_interrupt 0x11 1 /\
  bit_accessor_at timerA_enabled 0x11 2 /\
  field_accessor_at timerA_frequency 0x11 3 2 false.
Proof.
  repeat match goal with
         | |- _ /\ _ => split
         | |- bit_accessor_at ?d _ _ => apply (bit_accessor_ok d); cbn; lia
         | |- field_accessor_at ?d _ _ _ _ => apply (field_accessor_ok d); cbn; lia
         end.
  - exact datetime_block_ok.
  - exact alarm_block_ok.
Qed.

Lemma register_map_exact_witness :
  (nth 0 (faults seeded_bus) false = false /\ nth 1 (faults seeded_bus) false = false /\
   nth 2 (faults quiet_bus) false = false) /\
  fst (RWBits_set timerA_frequency __init__ TIMER_FREQ_1HZ seeded_bus) = Ok tt /\
  issued (RWBits_set timerA_frequency __init__ TIMER_FREQ_1HZ) seeded_bus
    = [TxWriteThenRead 0x51 [0x11] 1; TxWrite 0x51 [0x11; 0xF7]] /\
  fst (RWBit_set alarm_status __init__ false seeded_bus) = Ok tt /\
  regs (snd (RWBit_set alarm_status __init__ false seeded_bus)) 0x01 = 0xB8 /\
  fst (datetime_setter __init__ example_time quiet_bus) = Ok tt /\
  load (regs (snd (datetime_setter __init__ example_time quiet_bus))) 0x04 7
    = [0x15; 0x14; 0x15; 0x29; 0x00; 0x10; 0x17] /\
  fst (BCDAlarmTimeRegister_set alarm __init__ morning_alarm quiet_bus) = Ok tt /\
  load (regs (snd (BCDAlarmTimeRegister_set alarm __init__ morning_alarm quiet_bus))) 0x0B 5
    = [0x80; 0x30; 0x07; 0x80; 0x80].
Proof.
  destruct register_map_exact
    as (_ & _ & _ & Hstatus & _ & _ & _ & _ & Hdatetime & _ & Halarm & _ & _ & _ & _ & Hfreq).
  split; [repeat split|].
  destruct (Hfreq __init__ seeded_bus) as [_ Hfreq_set].
  destruct (Hfreq_set TIMER_FREQ_1HZ) as [Hfreq_goes _].
  destruct (Hfreq_goes eq_refl eq_refl) as (b1 & E1 & I1).
  destruct (Hstatus __init__ seeded_bus) as [_ Hstatus_set].
  destruct (Hstatus_set false) as [Hstatus_goes _].
  destruct (Hstatus_goes eq_refl eq_refl) as (b2 & E2 & _).
  destruct (Hdatetime __init__ quiet_bus) as [_ Hdatetime_set].
  destruct (Hdatetime_set example_time) as [Hdatetime_goes Hdatetime_block].
  destruct (Hdatetime_goes eq_refl eq_refl eq_refl) as (b3 & E3 & _).
  destruct (Halarm __init__ quiet_bus) as [_ Halarm_set].
  destruct (Halarm_set morning_alarm) as [Halarm_goes Halarm_block].
  destruct (Halarm_goes eq_refl) as (b4 & E4 & _).
  split; [now rewrite E1|]. split; [reflexivity|].
  split; [now rewrite E2|]. split; [reflexivity|].
  split; [now rewrite E3|].
  split; [exact (proj1 (Hdatetime_block _ (surjective_pairing _)))|].
  split; [now rewrite E4|].
  exact (proj1 (Halarm_block _ (surjective_pairing _))).
Defined.

(** ** Calibration *)

Lemma wrap_signed_7 (v : Z) :
  field_value (with_field 0 0 7 v) 0 7 true = (v + 64) mod 128 - 64.
Proof.
  unfold field_value. rewrite extract_with_field by lia.
  change (2 ^ 7) with 128. change (2 ^ (7 - 1)) with 64. cbn [andb].
  destruct (Z.leb_spec 64 (v mod 128)); Z.div_mod_to_equations; lia.
Qed.

(** C6: the calibration field is seven bits in two's complement.  Once a
    write of [v] has gone through, reading returns [v] wrapped into
    [-64..63] (the low seven bits of [v], sign-extended from bit 6): [v]
    itself when [-64 <= v <= 63], and outside that range the truncated
    value, for every [v]. *)
Theorem calibration_round_trip (self : PCF85063A) (v : Z) (b b1 : bus) :
  RWBits_set calibration self v b = (Ok tt, b1) ->
  hd false (faults b1) = false ->
  fst (RWBits_get calibration self b1) = Ok ((v + 64) mod 128 - 64) /\
  (-64 <= v <= 63 -> fst (RWBits_get calibration self b1) = Ok v).
Proof.
  intros Hset Hread.
  assert (Hget : fst (RWBits_get calibration self b1) = Ok ((v + 64) mod 128 - 64)).
  { rewrite RWBits_get_run by (cbn; lia). rewrite Hread. cbn [fst].
    rewrite (RWBits_set_regs calibration self v b b1 Hset), set_reg_same.
    cbn [calibration bits_register lowest_bit num_bits signed]. f_equal.
    unfold field_value. rewrite extract_with_field by lia.
    rewrite <- (wrap_signed_7 v). unfold field_value.
    now rewrite extract_with_field by lia. }
  split; [exact Hget|].
  intros Hrange. rewrite Hget. f_equal. Z.div_mod_to_equations. lia.
Qed.

Lemma calibration_round_trip_witness :
  RWBits_set calibration __init__ (-64) quiet_bus
    = (Ok tt, snd (RWBits_set calibration __init__ (-64) quiet_bus)) /\
  hd false (faults (snd (RWBits_set calibration __init__ (-64) quiet_bus))) = false /\
  -64 <= -64 <= 63 /\
  fst (RWBits_get calibration __init__ (snd (RWBits_set calibration __init__ (-64) quiet_bus)))
    = Ok (-64).
Proof.
  split; [reflexivity|]. split; [reflexivity|]. split; [lia|].
  apply (proj2 (calibration_round_trip __init__ (-64) quiet_bus
                  (snd (RWBits_set calibration __init__ (-64) quiet_bus)) eq_refl eq_refl)).
  lia.
Defined.

Example calibration_boundaries :
  calibration_after (-64) = Ok (-64) /\ calibration_after 63 = Ok 63 /\
  calibration_after (-65) = Ok 63 /\ calibration_after 64 = Ok (-64).
Proof. repeat split. Qed.

(** ** Writing a field leaves the rest of the byte alone *)

(** C7: a write to a multi-bit field that goes through leaves every bit
    of the register outside the field's span as it was, whatever those bits
    were and whatever value is written, and leaves every other register as
    it was. *)
Theorem field_write_keeps_other_bits
    (d : RWBits) (self : PCF85063A) (value : Z) (b b' : bus) :
  0 <= lowest_bit d ->
  0 <= num_bits d ->
  RWBits_set d self value b = (Ok tt, b') ->
  (forall n, 0 <= n -> in_field (lowest_bit d) (num_bits d) n = false ->
     Z.testbit (regs b' (bits_register d)) n = Z.testbit (regs b (bits_register d)) n) /\
  (forall x, x <> bits_register d -> regs b' x = regs b x).
Proof.
  intros Ho Hw Hset. rewrite (RWBits_set_regs d self value b b' Hset). split.
  - intros n Hn Hout. rewrite set_reg_same, with_field_spec by lia. now rewrite Hout.
  - intros x Hx. now apply set_reg_other.
Qed.

Lemma field_write_keeps_other_bits_witness :
  (0 <= lowest_bit timerA_frequency /\ 0 <= num_bits timerA_frequency /\
   RWBits_set timerA_frequency __init__ TIMER_FREQ_1HZ seeded_bus
     = (Ok tt, snd (RWBits_set timerA_frequency __init__ TIMER_FREQ_1HZ seeded_bus))) /\
  (forall n, 0 <= n -> in_field 3 2 n = false ->
     Z.testbit (regs (snd (RWBits_set timerA_frequency __init__ TIMER_FREQ_1HZ seeded_bus)) 0x11) n
       = Z.testbit 0xE7 n) /\
  regs (snd (RWBits_set timerA_frequency __init__ TIMER_FREQ_1HZ seeded_bus)) 0x11 = 0xF7 /\
  regs (snd (RWBits_set clockout_frequency __init__ CLOCKOUT_FREQ_1KHZ seeded_bus)) 0x01 = 0xFD.
Proof.
  split; [repeat split; cbn; lia|]. split; [|split; reflexivity].
  exact (proj1 (field_write_keeps_other_bits timerA_frequency __init__ TIMER_FREQ_1HZ seeded_bus
                  (snd (RWBits_set timerA_frequency __init__ TIMER_FREQ_1HZ seeded_bus))
                  ltac:(cbn; lia) ltac:(cbn; lia) eq_refl)).
Defined.

(** ** The device address *)

Section Addressed.
Variable dev : Z.

Lemma addressed_ret {A : Type} (a : A) : addressed dev (ret a).
Proof. intros b. exists []. split; [symmetry; apply app_nil_r|constructor]. Qed.

Lemma addressed_lift {A : Type} (r : result A) : addressed dev (lift r).
Proof. intros b. exists []. split; [symmetry; apply app_nil_r|constructor]. Qed.

Lemma addressed_bind {A B : Type} (m : M A) (k : A -> M B) :
  addressed dev m -> (forall a, addressed dev (k a)) -> addressed dev (bind m k).
Proof.
  intros Hm Hk b. unfold bind. destruct (Hm b) as (l1 & E1 & F1).
  destruct (m b) as [[a|e] b1]; cbn [snd] in *.
  - destruct (Hk a b1) as (l2 & E2 & F2). exists (l1 ++ l2).
    rewrite E2, E1, app_assoc. split; [reflexivity|]. apply Forall_app. now split.
  - exists l1. now split.
Qed.

Lemma addressed_write (bytes : list Z) : addressed dev (write dev bytes).
Proof.
  intros b. exists [TxWrite dev bytes]. split; [|repeat constructor].
  unfold write. destruct (hd false (faults b)); [reflexivity|].
  destruct bytes; reflexivity.
Qed.

Lemma addressed_write_then_read (out : list Z) (n : nat) :
  addressed dev (write_then_read dev out n).
Proof.
  intros b. exists [TxWriteThenRead dev out n]. split; [|repeat constructor].
  unfold write_then_read. destruct (hd false (faults b)); reflexivity.
Qed.
End Addressed.

Create HintDb addressed.

#[local] Hint Resolve addressed_ret addressed_lift addressed_write
  addressed_write_then_read : addressed.

Ltac addressed_step :=
  repeat (apply addressed_bind; [|intros ?]); auto with addressed.

Lemma perform_addressed (self : PCF85063A) (a : access) :
  addressed (address_of self) (perform self a).
Proof.
  destruct a; cbn [perform];
    unfold discard, datetime, datetime_setter, RWBit_get, RWBit_set, RWBits_get, RWBits_set,
      BCDDateTimeRegister_get, BCDDateTimeRegister_set, BCDAlarmTimeRegister_get,
      BCDAlarmTimeRegister_set, read_byte;
    addressed_step.
Qed.

(** C9: the handle is built with the device address 0x51, and every
    transaction of every access of the class, on any bus, is addressed to
    0x51. *)
Theorem every_transaction_to_0x51 (a : access) (b : bus) :
  address_of __init__ = 0x51 /\
  Forall (fun t => txn_addr t = 0x51) (issued (perform __init__ a) b).
Proof.
  split; [reflexivity|].
  destruct (perform_addressed __init__ a b) as (l & E & F).
  rewrite (issued_intro _ _ _ E). exact F.
Qed.

(** ** Reading the date-time changes nothing *)

(** C10: reading [datetime] issues one transaction, a read of the seven
    bytes at 0x04, and leaves every register of the chip as it was, the
    power-lost bit included; what it returns is the decoding of those seven
    bytes. *)
Theorem datetime_read_only (self : PCF85063A) (b : bus) :
  regs (snd (datetime self b)) = regs b /\
  issued (datetime self) b = [TxWriteThenRead (address_of self) [0x04] 7] /\
  existsb is_write (issued (datetime self) b) = false /\
  fst (datetime self b) =
    (if hd false (faults b) then Err TransportError
     else decode_datetime datetime_register (load (regs b) 0x04 7)).
Proof.
  assert (Hissued : issued (datetime self) b = [TxWriteThenRead (address_of self) [0x04] 7]).
  { apply issued_intro. now rewrite datetime_run. }
  rewrite Hissued, datetime_run. repeat split.
Qed.

(** * Further properties of the class *)

(** ** What a write changes and what a read depends on *)

(** Closes a bound [lo <= x < hi] between numbers that compute. *)
Ltac in_range := split; [apply Z.leb_le|apply Z.ltb_lt]; reflexivity.

Lemma accessors_well_formed (a : accessor) :
  In a accessors -> 0 <= accessor_offset a /\ 1 <= accessor_width a.
Proof.
  unfold accessors. cbn [In]. intros H.
  repeat match goal with
         | H : _ \/ _ |- _ => destruct H as [<-|H]
         | H : False |- _ => destruct H
         end; cbn; lia.
Qed.

Lemma accessors_apart (f g : accessor) :
  In f accessors -> In g accessors -> f <> g -> apart f g = true.
Proof.
  unfold accessors. cbn [In]. intros Hf Hg Hne.
  repeat match goal with
         | H : _ \/ _ |- _ => destruct H as [<-|H]
         | H : False |- _ => destruct H
         end; try reflexivity; exfalso; apply Hne; reflexivity.
Qed.

Lemma written_regs (f : accessor) (self : PCF85063A) (b b' : bus) :
  0 <= accessor_offset f -> 0 <= accessor_width f ->
  written f self b b' ->
  exists byte',
    regs b' = set_reg (regs b) (accessor_register f) byte' /\
    forall n, 0 <= n -> in_field (accessor_offset f) (accessor_width f) n = false ->
      Z.testbit byte' n = Z.testbit (regs b (accessor_register f)) n.
Proof.
  intros Ho Hw Hwr. destruct f as [d|d]; cbn [accessor_offset accessor_width
    accessor_register written] in *.
  - destruct Hwr as [value Hset].
    exists (with_bit (regs b (bit_register d)) (bit_index d) value).
    split; [exact (RWBit_set_regs d self value b b' Hset)|].
    intros n Hn Hout. rewrite with_bit_spec by lia.
    destruct (Z.eqb_spec n (bit_index d)) as [->|]; [|reflexivity].
    unfold in_field in Hout. rewrite Z.leb_refl in Hout. cbn [andb] in Hout.
    apply Z.ltb_ge in Hout. lia.
  - destruct Hwr as (value & _ & Hset).
    exists (with_field (regs b (bits_register d)) (lowest_bit d) (num_bits d) value).
    split; [exact (RWBits_set_regs d self value b b' Hset)|].
    intros n Hn Hout. rewrite with_field_spec by lia. now rewrite Hout.
Qed.

Lemma field_value_ext (x y offset width : Z) (sg : bool) :
  0 <= offset -> 0 <= width ->
  (forall n, 0 <= n -> in_field offset width n = true -> Z.testbit x n = Z.testbit y n) ->
  field_value x offset width sg = field_value y offset width sg.
Proof.
  intros Ho Hw Hbits.
  assert (E : (x / 2 ^ offset) mod 2 ^ width = (y / 2 ^ offset) mod 2 ^ width).
  { rewrite <- !Z.land_ones, <- !Z.shiftr_div_pow2 by lia.
    apply Z.bits_inj'. intros n Hn.
    rewrite !Z.land_spec, !Z.shiftr_spec, Z.testbit_ones_nonneg by lia.
    destruct (Z.ltb_spec n width) as [Hlt|Hge]; [|now rewrite !andb_false_r].
    rewrite !andb_true_r. apply Hbits; [lia|]. unfold in_field.
    apply andb_true_iff. split; [apply Z.leb_le|apply Z.ltb_lt]; lia. }
  unfold field_value. now rewrite E.
Qed.

Lemma reads_same_bits (g : accessor) (self : PCF85063A) (m m' : registers) :
  0 <= accessor_offset g -> 1 <= accessor_width g ->
  (forall n, 0 <= n -> in_field (accessor_offset g) (accessor_width g) n = true ->
     Z.testbit (m' (accessor_register g)) n = Z.testbit (m (accessor_register g)) n) ->
  reads_same g self m m'.
Proof.
  intros Ho Hw Hbits. destruct g as [d|d]; cbn [accessor_offset accessor_width
    accessor_register reads_same] in *.
  - rewrite !RWBit_get_run. cbn [on_chip faults hd fst regs]. f_equal.
    apply Hbits; [lia|]. unfold in_field. rewrite Z.leb_refl. cbn [andb].
    apply Z.ltb_lt. lia.
  - rewrite !RWBits_get_run by lia. cbn [on_chip faults hd fst regs]. f_equal.
    apply field_value_ext; [lia|lia|exact Hbits].
Qed.

Lemma reads_same_register (g : accessor) (self : PCF85063A) (m m' : registers) :
  0 <= accessor_offset g -> 1 <= accessor_width g ->
  m' (accessor_register g) = m (accessor_register g) ->
  reads_same g self m m'.
Proof.
  intros Ho Hw E. apply reads_same_bits; [lia|lia|]. intros n _ _. now rewrite E.
Qed.

(** X1: the bit and field accessors of the class do not overlap: after a
    write to one of them that went through, with a value the field can
    hold, every other one reads what it read before. *)
Theorem accessor_writes_independent
    (f g : accessor) (self : PCF85063A) (b b' : bus) :
  In f accessors -> In g accessors -> f <> g ->
  written f self b b' ->
  reads_same g self (regs b) (regs b').
Proof.
  intros Hf Hg Hne Hwr.
  destruct (accessors_well_formed f Hf) as [Hfo Hfw].
  destruct (accessors_well_formed g Hg) as [Hgo Hgw].
  pose proof (accessors_apart f g Hf Hg Hne) as Hap.
  destruct (written_regs f self b b' Hfo ltac:(lia) Hwr) as (byte' & -> & Hkeep).
  destruct (Z.eq_dec (accessor_register g) (accessor_register f)) as [E|E].
  - apply reads_same_bits; [lia|lia|]. intros n Hn Hin.
    rewrite E, set_reg_same. apply Hkeep; [exact Hn|].
    unfold apart in Hap. rewrite E, Z.eqb_refl in Hap. cbn [negb orb] in Hap.
    unfold in_field in *. apply andb_true_iff in Hin as [Hlo Hhi].
    apply Z.leb_le in Hlo. apply Z.ltb_lt in Hhi.
    apply orb_true_iff in Hap as [Hap|Hap]; apply Z.leb_le in Hap.
    + destruct (Z.ltb_spec n (accessor_offset f + accessor_width f)); [lia|].
      apply andb_false_r.
    + destruct (Z.leb_spec (accessor_offset f) n); [lia|reflexivity].
  - apply reads_same_register; [lia|lia|]. now apply set_reg_other.
Qed.

Lemma accessor_writes_independent_witness :
  In (ABits clockout_frequency) accessors /\ In (ABit timerA_status) accessors /\
  ABits clockout_frequency <> ABit timerA_status /\
  written (ABits clockout_frequency) __init__ seeded_bus
    (snd (RWBits_set clockout_frequency __init__ CLOCKOUT_FREQ_1KHZ seeded_bus)) /\
  reads_same (ABit timerA_status) __init__ (regs seeded_bus)
    (regs (snd (RWBits_set clockout_frequency __init__ CLOCKOUT_FREQ_1KHZ seeded_bus))).
Proof.
  assert (Hf : In (ABits clockout_frequency) accessors) by (cbn; tauto).
  assert (Hg : In (ABit timerA_status) accessors) by (cbn; tauto).
  assert (Hne : ABits clockout_frequency <> ABit timerA_status) by discriminate.
  assert (Hwr : written (ABits clockout_frequency) __init__ seeded_bus
            (snd (RWBits_set clockout_frequency __init__ CLOCKOUT_FREQ_1KHZ seeded_bus))).
  { exists CLOCKOUT_FREQ_1KHZ. split; [in_range|reflexivity]. }
  split; [exact Hf|]. split; [exact Hg|]. split; [exact Hne|]. split; [exact Hwr|].
  exact (accessor_writes_independent _ _ __init__ seeded_bus _ Hf Hg Hne Hwr).
Defined.

(** ** Round trips of single accessors *)

(** X2: for each unsigned field of the class (the two frequency
    selectors, the timer value, the RAM byte), a write of a value from 0
    to [2^width - 1] that went through is read back as written. *)
Theorem unsigned_field_round_trip
    (d : RWBits) (self : PCF85063A) (v : Z) (b b1 : bus) :
  In d [clockout_frequency; timerA_frequency; timerA_value; ram_byte] ->
  0 <= v < 2 ^ num_bits d ->
  RWBits_set d self v b = (Ok tt, b1) ->
  hd false (faults b1) = false ->
  fst (RWBits_get d self b1) = Ok v.
Proof.
  intros Hd Hv Hset Hread.
  assert (Hwf : 0 <= lowest_bit d /\ 1 <= num_bits d /\ signed d = false).
  { cbn [In] in Hd.
    repeat match goal with
           | H : _ \/ _ |- _ => destruct H as [<-|H]
           | H : False |- _ => destruct H
           end; cbn; repeat split; lia. }
  destruct Hwf as (Ho & Hw & Hs).
  rewrite RWBits_get_run, Hread by lia. cbn [fst].
  rewrite (RWBits_set_regs d self v b b1 Hset), set_reg_same, Hs. f_equal.
  unfold field_value. cbn [andb].
  rewrite extract_with_field by lia. apply Z.mod_small. exact Hv.
Qed.

Lemma unsigned_field_round_trip_witness :
  In timerA_value [clockout_frequency; timerA_frequency; timerA_value; ram_byte] /\
  0 <= 200 < 2 ^ num_bits timerA_value /\
  fst (RWBits_get timerA_value __init__
         (snd (RWBits_set timerA_value __init__ 200 seeded_bus))) = Ok 200.
Proof.
  split; [cbn; tauto|]. split; [in_range|].
  exact (unsigned_field_round_trip timerA_value __init__ 200 seeded_bus
           (snd (RWBits_set timerA_value __init__ 200 seeded_bus))
           ltac:(cbn; tauto) ltac:(in_range) eq_refl eq_refl).
Defined.

(** X3: for each single-bit accessor of the class, a write that went
    through is read back as written. *)
Theorem bit_round_trip (d : RWBit) (self : PCF85063A) (v : bool) (b b1 : bus) :
  In (ABit d) accessors ->
  RWBit_set d self v b = (Ok tt, b1) ->
  hd false (faults b1) = false ->
  fst (RWBit_get d self b1) = Ok v.
Proof.
  intros Hd Hset Hread.
  destruct (accessors_well_formed (ABit d) Hd) as [Ho _]. cbn in Ho.
  rewrite RWBit_get_run, Hread. cbn [fst].
  rewrite (RWBit_set_regs d self v b b1 Hset), set_reg_same, with_bit_spec by lia.
  now rewrite Z.eqb_refl.
Qed.

Lemma bit_round_trip_witness :
  In (ABit timerA_enabled) accessors /\
  fst (RWBit_get timerA_enabled __init__
         (snd (RWBit_set timerA_enabled __init__ true quiet_bus))) = Ok true /\
  fst (RWBit_get alarm_status __init__
         (snd (RWBit_set alarm_status __init__ false seeded_bus))) = Ok false.
Proof.
  split; [cbn; tauto|]. split.
  - exact (bit_round_trip timerA_enabled __init__ true quiet_bus
             (snd (RWBit_set timerA_enabled __init__ true quiet_bus))
             ltac:(cbn; tauto) eq_refl eq_refl).
  - exact (bit_round_trip alarm_status __init__ false seeded_bus
             (snd (RWBit_set alarm_status __init__ false seeded_bus))
             ltac:(cbn; tauto) eq_refl eq_refl).
Defined.

(** ** What a read can return *)

Lemma field_value_range (x offset width : Z) (sg : bool) :
  1 <= width ->
  if sg then - 2 ^ (width - 1) <= field_value x offset width sg < 2 ^ (width - 1)
  else 0 <= field_value x offset width sg < 2 ^ width.
Proof.
  intros Hw.
  assert (Hp : 0 < 2 ^ (width - 1)) by (apply Z.pow_pos_nonneg; lia).
  assert (H2 : 2 ^ width = 2 * 2 ^ (width - 1)).
  { replace width with (Z.succ (width - 1)) at 1 by lia. apply Z.pow_succ_r. lia. }
  pose proof (Z.mod_pos_bound (x / 2 ^ offset) (2 ^ width) ltac:(lia)) as Hraw.
  unfold field_value. destruct sg; cbn [andb]; [|exact Hraw].
  destruct (Z.leb_spec (2 ^ (width - 1)) ((x / 2 ^ offset) mod 2 ^ width)); lia.
Qed.

Lemma RWBits_get_value (d : RWBits) (self : PCF85063A) (v : Z) (b b' : bus) :
  0 <= lowest_bit d -> 1 <= num_bits d ->
  RWBits_get d self b = (Ok v, b') ->
  v = field_value (regs b (bits_register d)) (lowest_bit d) (num_bits d) (signed d).
Proof.
  intros Ho Hw H. rewrite RWBits_get_run in H by lia.
  destruct (hd false (faults b)); [discriminate H|]. now injection H as <- _.
Qed.

(** X4: whatever register 0x01 holds, a read of [clockout_frequency] that
    goes through returns one of the eight named [CLOCKOUT_FREQ_] constants,
    and no two of these names stand for the same value. *)
Theorem clockout_frequency_reads_named (self : PCF85063A) (v : Z) (b b' : bus) :
  RWBits_get clockout_frequency self b = (Ok v, b') ->
  In v clockout_frequencies /\ NoDup clockout_frequencies.
Proof.
  intros H. split.
  - apply RWBits_get_value in H; [|cbn; lia|cbn; lia].
    pose proof (field_value_range (regs b 0x01) 0 3 false ltac:(lia)) as Hr.
    cbn [clockout_frequency bits_register lowest_bit num_bits signed] in H.
    rewrite <- H in Hr. change (2 ^ 3) with 8 in Hr. cbv beta iota in Hr.
    assert (Hv : v = 0 \/ v = 1 \/ v = 2 \/ v = 3 \/ v = 4 \/ v = 5 \/ v = 6 \/ v = 7)
      by lia.
    clear H Hr. cbv. lia.
  - unfold clockout_frequencies.
    repeat (constructor; [cbn [In]; intros Hin;
      repeat (destruct Hin as [Hin|Hin]; [discriminate Hin|]); exact Hin|]).
    constructor.
Qed.

Lemma clockout_frequency_reads_named_witness :
  RWBits_get clockout_frequency __init__ seeded_bus
    = (Ok CLOCKOUT_FREQ_32KHZ, snd (RWBits_get clockout_frequency __init__ seeded_bus)) /\
  In CLOCKOUT_FREQ_32KHZ clockout_frequencies.
Proof.
  split; [reflexivity|].
  exact (proj1 (clockout_frequency_reads_named __init__ CLOCKOUT_FREQ_32KHZ seeded_bus
                  (snd (RWBits_get clockout_frequency __init__ seeded_bus)) eq_refl)).
Defined.

(** X5: whatever register 0x11 holds, a read of [timerA_frequency] that
    goes through returns one of the four named [TIMER_FREQ_] constants, and
    no two of these names stand for the same value. *)
Theorem timerA_frequency_reads_named (self : PCF85063A) (v : Z) (b b' : bus) :
  RWBits_get timerA_frequency self b = (Ok v, b') ->
  In v timer_frequencies /\ NoDup timer_frequencies.
Proof.
  intros H. split.
  - apply RWBits_get_value in H; [|cbn; lia|cbn; lia].
    pose proof (field_value_range (regs b 0x11) 3 2 false ltac:(lia)) as Hr.
    cbn [timerA_frequency bits_register lowest_bit num_bits signed] in H.
    rewrite <- H in Hr. change (2 ^ 2) with 4 in Hr. cbv beta iota in Hr.
    assert (Hv : v = 0 \/ v = 1 \/ v = 2 \/ v = 3) by lia.
    clear H Hr. cbv. lia.
  - unfold timer_frequencies.
    repeat (constructor; [cbn [In]; intros Hin;
      repeat (destruct Hin as [Hin|Hin]; [discriminate Hin|]); exact Hin|]).
    constructor.
Qed.

Lemma timerA_frequency_reads_named_witness :
  RWBits_get timerA_frequency __init__ quiet_bus
    = (Ok TIMER_FREQ_4KHZ, snd (RWBits_get timerA_frequency __init__ quiet_bus)) /\
  In TIMER_FREQ_4KHZ timer_frequencies.
Proof.
  split; [reflexivity|].
  exact (proj1 (timerA_frequency_reads_named __init__ TIMER_FREQ_4KHZ quiet_bus
                  (snd (RWBits_get timerA_frequency __init__ quiet_bus)) eq_refl)).
Defined.

(** X6: whatever the register holds, a read of a field of the class that
    goes through returns a value of the field's range: from [-2^(width-1)]
    to [2^(width-1) - 1] for the signed calibration (-64 to 63), from 0 to
    [2^width - 1] for the others (0 to 255 for the timer value and the RAM
    byte). *)
Theorem field_reads_in_range (d : RWBits) (self : PCF85063A) (v : Z) (b b' : bus) :
  In (ABits d) accessors ->
  RWBits_get d self b = (Ok v, b') ->
  if signed d then - 2 ^ (num_bits d - 1) <= v < 2 ^ (num_bits d - 1)
  else 0 <= v < 2 ^ num_bits d.
Proof.
  intros Hd H.
  destruct (accessors_well_formed (ABits d) Hd) as [Ho Hw].
  cbn [accessor_offset accessor_width] in Ho, Hw.
  rewrite (RWBits_get_value d self v b b' Ho Hw H).
  apply field_value_range. exact Hw.
Qed.

Lemma field_reads_in_range_witness :
  In (ABits calibration) accessors /\
  RWBits_get calibration __init__
      (snd (RWBits_set calibration __init__ (-3) quiet_bus))
    = (Ok (-3), snd (RWBits_get calibration __init__
                       (snd (RWBits_set calibration __init__ (-3) quiet_bus)))) /\
  - 2 ^ (7 - 1) <= -3 < 2 ^ (7 - 1).
Proof.
  split; [cbn; tauto|]. split; [reflexivity|].
  exact (field_reads_in_range calibration __init__ (-3)
           (snd (RWBits_set calibration __init__ (-3) quiet_bus))
           (snd (RWBits_get calibration __init__
                   (snd (RWBits_set calibration __init__ (-3) quiet_bus))))
           ltac:(cbn; tauto) eq_refl).
Defined.

(** ** Accessors and blocks keep out of each other's way *)

Lemma load_succ (m : registers) (a : Z) (n : nat) :
  load m a (S n) = m a :: load m (a + 1) n.
Proof. reflexivity. Qed.

Lemma load_set_reg_outside (n : nat) :
  forall (m : registers) (r v a : Z),
    r < a \/ a + Z.of_nat n <= r -> load (set_reg m r v) a n = load m a n.
Proof.
  induction n as [|k IH]; intros m r v a Hr; [reflexivity|].
  cbn [load]. rewrite set_reg_other by lia. f_equal. apply IH. lia.
Qed.

Lemma load_store_outside (n : nat) :
  forall (m : registers) (a : Z) (bytes : list Z) (a' : Z),
    a' + Z.of_nat n <= a \/ a + Z.of_nat (List.length bytes) <= a' ->
    load (store m a bytes) a' n = load m a' n.
Proof.
  induction n as [|k IH]; intros m a bytes a' Hr; [reflexivity|].
  cbn [load]. rewrite store_outside by lia. f_equal. apply IH. lia.
Qed.

Lemma alarm_get_run (self : PCF85063A) (b : bus) :
  BCDAlarmTimeRegister_get alarm self b =
    (if hd false (faults b) then Err TransportError
     else decode_alarm alarm (load (regs b) 0x0B 5),
     mkBus (regs b) (tl (faults b))
           (trace b ++ [TxWriteThenRead (address_of self) [0x0B] 5])).
Proof.
  unfold BCDAlarmTimeRegister_get, bind, write_then_read, lift.
  destruct (hd false (faults b)); reflexivity.
Qed.

Lemma blocks_read_same_intro (self : PCF85063A) (m m' : registers) :
  decode_datetime datetime_register (load m' 0x04 7)
    = decode_datetime datetime_register (load m 0x04 7) ->
  load m' 0x0B 5 = load m 0x0B 5 ->
  blocks_read_same self m m'.
Proof.
  intros Hd Ha. unfold blocks_read_same.
  rewrite !datetime_run, !alarm_get_run. cbn [on_chip faults hd fst regs].
  now rewrite Hd, Ha.
Qed.

Lemma accessors_registers (a : accessor) :
  In a accessors ->
  a = ABit lost_power \/ accessor_register a < 0x04 \/ 0x10 <= accessor_register a.
Proof.
  unfold accessors. cbn [In]. intros H.
  repeat match goal with
         | H : _ \/ _ |- _ => destruct H as [<-|H]
         | H : False |- _ => destruct H
         end; cbn; (now left) || (right; lia).
Qed.

Lemma seconds_without_flag (x y : Z) :
  (forall n, 0 <= n -> in_field 7 1 n = false -> Z.testbit x n = Z.testbit y n) ->
  Z.land x 0x7F = Z.land y 0x7F.
Proof.
  intros H. apply Z.bits_inj'. intros n Hn. rewrite !Z.land_spec.
  change 0x7F with (Z.ones 7). rewrite Z.testbit_ones_nonneg by lia.
  destruct (Z.ltb_spec n 7) as [Hlt|Hge]; [|now rewrite !andb_false_r].
  rewrite !andb_true_r. apply H; [exact Hn|]. unfold in_field.
  destruct (Z.leb_spec 7 n); [lia|reflexivity].
Qed.

Lemma decode_datetime_seconds (x y : Z) (rest : list Z) :
  Z.land x 0x7F = Z.land y 0x7F ->
  decode_datetime datetime_register (x :: rest)
    = decode_datetime datetime_register (y :: rest).
Proof. intros H. unfold decode_datetime. cbn [nth]. now rewrite H. Qed.

(** X7: a write to any bit or field accessor of the class that went
    through leaves what [datetime] and [alarm] read as it was; for
    [lost_power], which shares register 0x04 with the seconds, because the
    flag bit is not part of the seconds. *)
Theorem accessor_writes_keep_blocks (f : accessor) (self : PCF85063A) (b b' : bus) :
  In f accessors ->
  written f self b b' ->
  blocks_read_same self (regs b) (regs b').
Proof.
  intros Hf Hwr.
  destruct (accessors_well_formed f Hf) as [Ho Hw].
  destruct (written_regs f self b b' Ho ltac:(lia) Hwr) as (byte' & -> & Hkeep).
  destruct (accessors_registers f Hf) as [->|Hreg].
  - cbn [accessor_register accessor_offset accessor_width lost_power bit_register
         bit_index] in *.
    apply blocks_read_same_intro.
    + rewrite !(load_succ _ 0x04 6), set_reg_same, load_set_reg_outside by lia.
      apply decode_datetime_seconds, seconds_without_flag. exact Hkeep.
    + apply load_set_reg_outside. lia.
  - apply blocks_read_same_intro.
    + apply (f_equal (decode_datetime datetime_register)).
      apply load_set_reg_outside. cbn [Z.of_nat]. lia.
    + apply load_set_reg_outside. cbn [Z.of_nat]. lia.
Qed.

Lemma accessor_writes_keep_blocks_witness :
  In (ABit lost_power) accessors /\
  written (ABit lost_power) __init__
    (snd (datetime_setter __init__ example_time quiet_bus))
    (snd (RWBit_set lost_power __init__ true
            (snd (datetime_setter __init__ example_time quiet_bus)))) /\
  fst (datetime __init__
         (on_chip (regs (snd (RWBit_set lost_power __init__ true
                               (snd (datetime_setter __init__ example_time quiet_bus)))))))
    = Ok example_time.
Proof.
  assert (Hf : In (ABit lost_power) accessors) by (cbn; tauto).
  assert (Hwr : written (ABit lost_power) __init__
            (snd (datetime_setter __init__ example_time quiet_bus))
            (snd (RWBit_set lost_power __init__ true
                    (snd (datetime_setter __init__ example_time quiet_bus))))).
  { exists true. reflexivity. }
  split; [exact Hf|]. split; [exact Hwr|].
  rewrite (proj1 (accessor_writes_keep_blocks _ __init__ _ _ Hf Hwr)). reflexivity.
Defined.

(** X8: an assignment to [datetime] that went through leaves what every
    bit and field accessor other than [lost_power] reads, and what [alarm]
    reads, as it was. *)
Theorem datetime_set_keeps_accessors
    (g : accessor) (self : PCF85063A) (value : struct_time) (b b' : bus) :
  In g accessors -> g <> ABit lost_power ->
  datetime_setter self value b = (Ok tt, b') ->
  reads_same g self (regs b) (regs b') /\
  fst (BCDAlarmTimeRegister_get alarm self (on_chip (regs b')))
    = fst (BCDAlarmTimeRegister_get alarm self (on_chip (regs b))).
Proof.
  intros Hg Hne Hset.
  destruct (accessors_well_formed g Hg) as [Ho Hw].
  rewrite (datetime_setter_regs self value b b' Hset). split.
  - destruct (accessors_registers g Hg) as [->|Hreg]; [now elim Hne|].
    apply reads_same_register; [lia|lia|].
    rewrite store_outside by (rewrite encode_datetime_length; cbn [Z.of_nat]; lia).
    apply set_reg_other. lia.
  - rewrite !alarm_get_run. cbn [on_chip faults hd fst regs].
    apply (f_equal (decode_alarm alarm)).
    rewrite load_store_outside by (rewrite encode_datetime_length; cbn [Z.of_nat]; lia).
    apply load_set_reg_outside. cbn [Z.of_nat]. lia.
Qed.

Lemma datetime_set_keeps_accessors_witness :
  In (ABits timerA_frequency) accessors /\ ABits timerA_frequency <> ABit lost_power /\
  datetime_setter __init__ example_time seeded_bus
    = (Ok tt, snd (datetime_setter __init__ example_time seeded_bus)) /\
  reads_same (ABits timerA_frequency) __init__ (regs seeded_bus)
    (regs (snd (datetime_setter __init__ example_time seeded_bus))).
Proof.
  split; [cbn; tauto|]. split; [discriminate|]. split; [reflexivity|].
  exact (proj1 (datetime_set_keeps_accessors (ABits timerA_frequency) __init__ example_time
                  seeded_bus (snd (datetime_setter __init__ example_time seeded_bus))
                  ltac:(cbn; tauto) ltac:(discriminate) eq_refl)).
Defined.

(** X9: an assignment to [alarm] that went through leaves what every bit
    and field accessor of the class reads, and what [datetime] reads, as it
    was: the alarm block 0x0B..0x0F meets none of their registers. *)
Theorem alarm_set_keeps_rest
    (g : accessor) (self : PCF85063A) (value : alarm_time) (b b' : bus) :
  In g accessors ->
  BCDAlarmTimeRegister_set alarm self value b = (Ok tt, b') ->
  reads_same g self (regs b) (regs b') /\
  fst (datetime self (on_chip (regs b'))) = fst (datetime self (on_chip (regs b))).
Proof.
  intros Hg Hset.
  destruct (accessors_well_formed g Hg) as [Ho Hw].
  rewrite (alarm_set_regs self value b b' Hset). split.
  - apply reads_same_register; [lia|lia|].
    apply store_outside. rewrite encode_alarm_length. cbn [Z.of_nat].
    destruct (accessors_registers g Hg) as [->|Hreg]; [cbn|]; lia.
  - rewrite !datetime_run. cbn [on_chip faults hd fst regs].
    apply (f_equal (decode_datetime datetime_register)).
    apply load_store_outside. rewrite encode_alarm_length. cbn [Z.of_nat]. lia.
Qed.

Lemma alarm_set_keeps_rest_witness :
  In (ABit lost_power) accessors /\
  BCDAlarmTimeRegister_set alarm __init__ morning_alarm quiet_bus
    = (Ok tt, snd (BCDAlarmTimeRegister_set alarm __init__ morning_alarm quiet_bus)) /\
  reads_same (ABit lost_power) __init__ (regs quiet_bus)
    (regs (snd (BCDAlarmTimeRegister_set alarm __init__ morning_alarm quiet_bus))).
Proof.
  split; [cbn; tauto|]. split; [reflexivity|].
  exact (proj1 (alarm_set_keeps_rest (ABit lost_power) __init__ morning_alarm quiet_bus
                  (snd (BCDAlarmTimeRegister_set alarm __init__ morning_alarm quiet_bus))
                  ltac:(cbn; tauto) eq_refl)).
Defined.

(** ** The date-time setter under failure and repetition *)

Lemma RWBit_set_read_fails (d : RWBit) (self : PCF85063A) (value : bool) (b : bus) :
  nth 0 (faults b) false = true ->
  RWBit_set d self value b =
    (Err TransportError,
     mkBus (regs b) (tl (faults b))
           (trace b ++ [TxWriteThenRead (address_of self) [bit_register d] 1])).
Proof.
  intros H0. rewrite nth0_hd in H0. unfold RWBit_set, bind.
  now rewrite read_byte_run, H0.
Qed.

Lemma RWBits_set_read_fails (d : RWBits) (self : PCF85063A) (value : Z) (b : bus) :
  nth 0 (faults b) false = true ->
  RWBits_set d self value b =
    (Err TransportError,
     mkBus (regs b) (tl (faults b))
           (trace b ++ [TxWriteThenRead (address_of self) [bits_register d] 1])).
Proof.
  intros H0. rewrite nth0_hd in H0. unfold RWBits_set, bind.
  now rewrite read_byte_run, H0.
Qed.

(** X10: when the read of register 0x04 or the write that clears the flag
    fails, the assignment to [datetime] raises the transport error, the
    chip's registers are as they were, and the write of the date-time block
    is never issued. *)
Theorem datetime_setter_early_failure (self : PCF85063A) (value : struct_time) (b : bus) :
  nth 0 (faults b) false = true \/ nth 1 (faults b) false = true ->
  fst (datetime_setter self value b) = Err TransportError /\
  regs (snd (datetime_setter self value b)) = regs b /\
  ~ In (TxWrite (address_of self) (0x04 :: encode_datetime datetime_register value))
       (issued (datetime_setter self value) b).
Proof.
  intros Hfail.
  destruct (nth 0 (faults b) false) eqn:E0.
  - assert (Hrun : datetime_setter self value b =
        (Err TransportError,
         mkBus (regs b) (tl (faults b))
               (trace b ++ [TxWriteThenRead (address_of self) [0x04] 1]))).
    { unfold datetime_setter, bind.
      now rewrite (RWBit_set_read_fails lost_power self false b E0). }
    rewrite (issued_intro _ b _ (f_equal (fun p => trace (snd p)) Hrun)), Hrun.
    repeat split. intros [Hin|[]]. discriminate Hin.
  - destruct Hfail as [Hfail|E1]; [discriminate Hfail|].
    assert (Hrun : datetime_setter self value b =
        (Err TransportError,
         mkBus (regs b) (skipn 2 (faults b))
               (trace b ++ [TxWriteThenRead (address_of self) [0x04] 1;
                            TxWrite (address_of self)
                              [0x04; with_bit (regs b 0x04) 7 false]]))).
    { unfold datetime_setter, bind.
      now rewrite (RWBit_set_run lost_power self false b E0), E1. }
    rewrite (issued_intro _ b _ (f_equal (fun p => trace (snd p)) Hrun)), Hrun.
    repeat split. intros [Hin|[Hin|[]]]; discriminate Hin.
Qed.

Lemma datetime_setter_early_failure_witness :
  (nth 0 (faults read_fails) false = true \/ nth 1 (faults read_fails) false = true) /\
  fst (datetime_setter __init__ example_time read_fails) = Err TransportError /\
  Z.testbit (regs (snd (datetime_setter __init__ example_time read_fails)) 0x04) 7 = true.
Proof.
  assert (H : nth 0 (faults read_fails) false = true
              \/ nth 1 (faults read_fails) false = true) by (left; reflexivity).
  split; [exact H|].
  destruct (datetime_setter_early_failure __init__ example_time read_fails H)
    as (Herr & Hregs & _).
  split; [exact Herr|]. rewrite Hregs. reflexivity.
Defined.

Lemma store_covered (bytes : list Z) (m m' : registers) (a x : Z) :
  a <= x < a + Z.of_nat (List.length bytes) ->
  store m a bytes x = store m' a bytes x.
Proof.
  intros Hx. replace x with (a + Z.of_nat (Z.to_nat (x - a))) by lia.
  rewrite !store_inside by lia. reflexivity.
Qed.

(** X11: two assignments to [datetime] in a row that both went through
    leave every register of the chip as the second one alone would have
    left it. *)
Theorem datetime_setter_last_wins
    (self : PCF85063A) (first second : struct_time) (b b1 b2 b2' : bus) :
  datetime_setter self first b = (Ok tt, b1) ->
  datetime_setter self second b1 = (Ok tt, b2) ->
  datetime_setter self second b = (Ok tt, b2') ->
  forall x, regs b2 x = regs b2' x.
Proof.
  intros H1 H2 H2' x.
  rewrite (datetime_setter_regs self second b1 b2 H2).
  rewrite (datetime_setter_regs self second b b2' H2').
  assert (Hlen : forall t, Z.of_nat (List.length (encode_datetime datetime_register t)) = 7)
    by reflexivity.
  destruct (Z.lt_ge_cases x 0x04) as [Hlo|Hlo];
    [|destruct (Z.lt_ge_cases x (0x04 + 7)) as [Hin|Hhi]].
  - rewrite !(store_outside (encode_datetime datetime_register second))
      by (rewrite Hlen; lia).
    rewrite !(set_reg_other _ 0x04 _ x) by lia.
    rewrite (datetime_setter_regs self first b b1 H1).
    rewrite store_outside by (rewrite Hlen; lia). apply set_reg_other. lia.
  - apply store_covered. rewrite Hlen. lia.
  - rewrite !(store_outside (encode_datetime datetime_register second))
      by (rewrite Hlen; lia).
    rewrite !(set_reg_other _ 0x04 _ x) by lia.
    rewrite (datetime_setter_regs self first b b1 H1).
    rewrite store_outside by (rewrite Hlen; lia). apply set_reg_other. lia.
Qed.

Lemma datetime_setter_last_wins_witness :
  datetime_setter __init__ example_time quiet_bus
    = (Ok tt, snd (datetime_setter __init__ example_time quiet_bus)) /\
  fst (datetime_setter __init__ new_year
         (snd (datetime_setter __init__ example_time quiet_bus))) = Ok tt /\
  fst (datetime_setter __init__ new_year quiet_bus) = Ok tt /\
  forall x,
    regs (snd (datetime_setter __init__ new_year
                 (snd (datetime_setter __init__ example_time quiet_bus)))) x
    = regs (snd (datetime_setter __init__ new_year quiet_bus)) x.
Proof.
  split; [reflexivity|]. split; [reflexivity|]. split; [reflexivity|].
  exact (datetime_setter_last_wins __init__ example_time new_year quiet_bus
           (snd (datetime_setter __init__ example_time quiet_bus))
           (snd (datetime_setter __init__ new_year
                   (snd (datetime_setter __init__ example_time quiet_bus))))
           (snd (datetime_setter __init__ new_year quiet_bus))
           eq_refl eq_refl eq_refl).
Defined.

(** ** Reads and failed accesses *)

Lemma read_access_run (self : PCF85063A) (a : access) (b : bus) :
  is_read a = true ->
  exists (r : Z) (n : nat),
    snd (perform self a b) =
      mkBus (regs b) (tl (faults b))
            (trace b ++ [TxWriteThenRead (address_of self) [r] n]).
Proof.
  intros Hread. destruct a; try discriminate Hread; cbn [perform]; unfold discard, bind.
  - exists (bit_register d), 1%nat. rewrite RWBit_get_run.
    destruct (hd false (faults b)); reflexivity.
  - exists (bits_register d), 1%nat. unfold RWBits_get, bind. rewrite read_byte_run.
    destruct (hd false (faults b)); reflexivity.
  - exists 0x04, 7%nat. rewrite datetime_run.
    destruct (hd false (faults b)); [reflexivity|].
    destruct (decode_datetime datetime_register (load (regs b) 4 7)); reflexivity.
  - exists 0x0B, 5%nat. rewrite alarm_get_run.
    destruct (hd false (faults b)); [reflexivity|].
    destruct (decode_alarm alarm (load (regs b) 11 5)); reflexivity.
Qed.

(** X12: no read access of the class changes a register or issues a write
    transaction, whether it returns or raises: the bit and field reads, the
    [datetime] read and the [alarm] read each issue one read transaction and
    nothing else. *)
Theorem reads_change_nothing (self : PCF85063A) (a : access) (b : bus) :
  is_read a = true ->
  regs (snd (perform self a b)) = regs b /\
  List.length (issued (perform self a) b) = 1%nat /\
  existsb is_write (issued (perform self a) b) = false.
Proof.
  intros Hread. destruct (read_access_run self a b Hread) as (r & n & Hrun).
  rewrite (issued_intro _ b _ (f_equal trace Hrun)), Hrun. repeat split.
Qed.

Lemma reads_change_nothing_witness :
  is_read GetAlarm = true /\
  regs (snd (perform __init__ GetAlarm seeded_bus)) = regs seeded_bus /\
  issued (perform __init__ GetAlarm) seeded_bus = [TxWriteThenRead 0x51 [0x0B] 5].
Proof.
  split; [reflexivity|].
  split; [|reflexivity].
  exact (proj1 (reads_change_nothing __init__ GetAlarm seeded_bus eq_refl)).
Defined.

(** X13: every access other than the assignment to [datetime] is all or
    nothing: when it raises, the registers of the chip are as they were. *)
Theorem failed_access_changes_nothing (self : PCF85063A) (a : access) (b : bus) :
  is_datetime_set a = false ->
  failed (fst (perform self a b)) = true ->
  regs (snd (perform self a b)) = regs b.
Proof.
  intros Hnot Hfail.
  destruct (is_read a) eqn:Hread.
  { destruct (read_access_run self a b Hread) as (r & n & Hrun). now rewrite Hrun. }
  destruct a; try discriminate Hread; try discriminate Hnot; cbn [perform] in *.
  - destruct (nth 0 (faults b) false) eqn:E0.
    + now rewrite (RWBit_set_read_fails d self value b E0).
    + rewrite (RWBit_set_run d self value b E0) in *. cbn [fst snd regs] in *.
      destruct (nth 1 (faults b) false); [reflexivity|discriminate Hfail].
  - destruct (nth 0 (faults b) false) eqn:E0.
    + now rewrite (RWBits_set_read_fails d self value b E0).
    + rewrite (RWBits_set_run d self value b E0) in *. cbn [fst snd regs] in *.
      destruct (nth 1 (faults b) false); [reflexivity|discriminate Hfail].
  - unfold BCDAlarmTimeRegister_set in *. rewrite write_run in *.
    cbn [fst snd regs] in *.
    destruct (hd false (faults b)); [reflexivity|discriminate Hfail].
Qed.

Lemma failed_access_changes_nothing_witness :
  is_datetime_set (SetBits timerA_value 200) = false /\
  failed (fst (perform __init__ (SetBits timerA_value 200)
                 (mkBus seeded [false; true] []))) = true /\
  regs (snd (perform __init__ (SetBits timerA_value 200)
               (mkBus seeded [false; true] []))) = seeded.
Proof.
  split; [reflexivity|]. split; [reflexivity|].
  exact (failed_access_changes_nothing __init__ (SetBits timerA_value 200)
           (mkBus seeded [false; true] []) eq_refl eq_refl).
Defined.
